(** * UltraTimer: the timer engine, its persistence and its remote-control thread

    A shallow embedding of [Programming-Scripts/Timer/ultratimer.py].

    Conventions of the embedding:
    - Python numbers (the [int] and [float] values held by [duration],
      [remaining], [elapsed], [start_time] and returned by [time.time()]) are
      exact rationals [Q]; Python's [==] and [<=] on them are [Qeq_bool] and
      [Qle_bool].
    - The instance attributes of [UltraTimer] are the fields of the record
      [App]; every method is a computation in the monad [M], which threads the
      [App] value and may raise a Python exception.  A raise keeps the
      mutations performed before it, as in Python.
    - [time.time()] is the argument [now] of the methods that read the clock.
    - Sounds and notifications are appended to the [events] field.
    - A file on disk is [NoFile], [Doc j] (a file holding the JSON text of the
      value [j]; [json.dump] followed by [json.load] is the identity on
      JSON-native values) or [Truncated].
    - [self.root.after(100, self.update_display)] only re-arms the Tk timer; the
      tick source is the caller of [update_display]. *)

From Stdlib Require Import ZArith QArith Qround Bool List String Ascii Lia Lqa.
From Stdlib Require Import DecimalString Qabs.
Import ListNotations.

Set Warnings "-register-all".
Local Open Scope string_scope.
Local Open Scope Q_scope.

(** ** Python values *)

(** JSON-native Python values: what [json.load] returns and [json.dump]
    accepts.  A [dict] is an association list in insertion order. *)
Inductive json : Type :=
  | JNull
  | JBool (b : bool)
  | JInt (n : Z)
  | JFloat (q : Q)
  | JStr (s : string)
  | JArr (l : list json)
  | JObj (kv : list (string * json)).

Definition dict (V : Type) : Type := list (string * V).

(** [d.get(k)] *)
Fixpoint dict_get {V} (k : string) (d : dict V) : option V :=
  match d with
  | [] => None
  | (k', v) :: d' => if String.eqb k k' then Some v else dict_get k d'
  end.

(** [d[k] = v]: replaces the value of an existing key in place, else appends. *)
Fixpoint dict_set {V} (k : string) (v : V) (d : dict V) : dict V :=
  match d with
  | [] => [(k, v)]
  | (k', v') :: d' =>
      if String.eqb k k' then (k', v) :: d' else (k', v') :: dict_set k v d'
  end.

Definition dict_keys {V} (d : dict V) : list string := map fst d.

(** The exceptions the modelled code can raise. *)
Inductive exn : Type :=
  | ZeroDivisionError
  | AttributeError
  | KeyError
  | TypeError
  | OSError
  | JSONDecodeError.

(** ** TimerPreset (the dataclass) *)

Module TimerPreset.
(** A dataclass does not check its annotations: a field holds whatever was
    passed to the constructor. *)
Record t : Type := Build {
  name : json;
  duration : json;
  warning_time : json;
  critical_time : json;
  sound_enabled : json;
  color_theme : json
}.

Definition fields : list string :=
  ["name"; "duration"; "warning_time"; "critical_time"; "sound_enabled";
   "color_theme"].

(** [vars(preset)] *)
Definition vars (p : t) : dict json :=
  [("name", name p); ("duration", duration p);
   ("warning_time", warning_time p); ("critical_time", critical_time p);
   ("sound_enabled", sound_enabled p); ("color_theme", color_theme p)].

Definition or_default (d : json) (o : option json) : json :=
  match o with Some v => v | None => d end.

(** The constructor called with the keyword arguments [kw], as in
    [load_presets]: [None] is the [TypeError] of an unexpected keyword or of
    a missing [name] or [duration]. *)
Definition of_kwargs (kw : dict json) : option t :=
  if forallb (fun e => existsb (String.eqb (fst e)) fields) kw then
    match dict_get "name" kw, dict_get "duration" kw with
    | Some n, Some d =>
        Some {| name := n;
                duration := d;
                warning_time := or_default (JInt 120) (dict_get "warning_time" kw);
                critical_time := or_default (JInt 60) (dict_get "critical_time" kw);
                sound_enabled := or_default (JBool true) (dict_get "sound_enabled" kw);
                color_theme := or_default (JStr "default") (dict_get "color_theme" kw) |}
    | _, _ => None
    end
  else None.
End TimerPreset.

(** ** The application state *)

(** A file of the home directory. [Truncated] is a file that [open(path, 'w')]
    emptied and that received at most a proper part of the document:
    [json.load] raises on it. *)
Inductive file : Type :=
  | NoFile
  | Doc (j : json)
  | Truncated.

(** How the operating system treats the next [open(path, 'w')] / [json.dump]:
    the write goes through, [open] itself fails, or the write fails after the
    file was opened. *)
Inductive write_fault : Type :=
  | WriteOk
  | OpenFails
  | DumpFails.

Inductive event : Type :=
  | PlaySound (sound_type : string)
  | Notification (message : string)
  | PrintLine (text : string).

Record Widgets : Type := {
  time_display_text : string;
  time_display_fg : string;
  progress_value : Q;
  start_btn_text : string;
  status_bar_text : string
}.

Record Disk : Type := {
  presets_file : file;
  stats_file : file;
  fault : write_fault
}.

Record App : Type := {
  mode : string;
  is_running : bool;
  start_time : Q;
  duration : Q;
  elapsed : Q;
  remaining : Q;
  current_theme : string;
  (** [None]: the attribute does not exist yet; only [open_settings] creates it. *)
  sound_enabled : option bool;
  presets : dict TimerPreset.t;
  stats : json;
  ui : Widgets;
  disk : Disk;
  events : list event
}.

Definition set_is_running (b : bool) (a : App) : App :=
  {| mode := mode a; is_running := b; start_time := start_time a;
     duration := duration a; elapsed := elapsed a; remaining := remaining a;
     current_theme := current_theme a; sound_enabled := sound_enabled a;
     presets := presets a; stats := stats a; ui := ui a; disk := disk a;
     events := events a |}.

Definition set_start_time (x : Q) (a : App) : App :=
  {| mode := mode a; is_running := is_running a; start_time := x;
     duration := duration a; elapsed := elapsed a; remaining := remaining a;
     current_theme := current_theme a; sound_enabled := sound_enabled a;
     presets := presets a; stats := stats a; ui := ui a; disk := disk a;
     events := events a |}.

Definition set_duration_field (x : Q) (a : App) : App :=
  {| mode := mode a; is_running := is_running a; start_time := start_time a;
     duration := x; elapsed := elapsed a; remaining := remaining a;
     current_theme := current_theme a; sound_enabled := sound_enabled a;
     presets := presets a; stats := stats a; ui := ui a; disk := disk a;
     events := events a |}.

Definition set_elapsed (x : Q) (a : App) : App :=
  {| mode := mode a; is_running := is_running a; start_time := start_time a;
     duration := duration a; elapsed := x; remaining := remaining a;
     current_theme := current_theme a; sound_enabled := sound_enabled a;
     presets := presets a; stats := stats a; ui := ui a; disk := disk a;
     events := events a |}.

Definition set_remaining (x : Q) (a : App) : App :=
  {| mode := mode a; is_running := is_running a; start_time := start_time a;
     duration := duration a; elapsed := elapsed a; remaining := x;
     current_theme := current_theme a; sound_enabled := sound_enabled a;
     presets := presets a; stats := stats a; ui := ui a; disk := disk a;
     events := events a |}.

Definition set_stats (j : json) (a : App) : App :=
  {| mode := mode a; is_running := is_running a; start_time := start_time a;
     duration := duration a; elapsed := elapsed a; remaining := remaining a;
     current_theme := current_theme a; sound_enabled := sound_enabled a;
     presets := presets a; stats := j; ui := ui a; disk := disk a;
     events := events a |}.

Definition set_presets (p : dict TimerPreset.t) (a : App) : App :=
  {| mode := mode a; is_running := is_running a; start_time := start_time a;
     duration := duration a; elapsed := elapsed a; remaining := remaining a;
     current_theme := current_theme a; sound_enabled := sound_enabled a;
     presets := p; stats := stats a; ui := ui a; disk := disk a;
     events := events a |}.

Definition set_ui (w : Widgets) (a : App) : App :=
  {| mode := mode a; is_running := is_running a; start_time := start_time a;
     duration := duration a; elapsed := elapsed a; remaining := remaining a;
     current_theme := current_theme a; sound_enabled := sound_enabled a;
     presets := presets a; stats := stats a; ui := w; disk := disk a;
     events := events a |}.

Definition set_disk (d : Disk) (a : App) : App :=
  {| mode := mode a; is_running := is_running a; start_time := start_time a;
     duration := duration a; elapsed := elapsed a; remaining := remaining a;
     current_theme := current_theme a; sound_enabled := sound_enabled a;
     presets := presets a; stats := stats a; ui := ui a; disk := d;
     events := events a |}.

Definition add_event (e : event) (a : App) : App :=
  {| mode := mode a; is_running := is_running a; start_time := start_time a;
     duration := duration a; elapsed := elapsed a; remaining := remaining a;
     current_theme := current_theme a; sound_enabled := sound_enabled a;
     presets := presets a; stats := stats a; ui := ui a; disk := disk a;
     events := events a ++ [e] |}.

Definition set_time_display_text (s : string) (w : Widgets) : Widgets :=
  {| time_display_text := s; time_display_fg := time_display_fg w;
     progress_value := progress_value w; start_btn_text := start_btn_text w;
     status_bar_text := status_bar_text w |}.

Definition set_time_display_fg (s : string) (w : Widgets) : Widgets :=
  {| time_display_text := time_display_text w; time_display_fg := s;
     progress_value := progress_value w; start_btn_text := start_btn_text w;
     status_bar_text := status_bar_text w |}.

Definition set_progress_value (x : Q) (w : Widgets) : Widgets :=
  {| time_display_text := time_display_text w;
     time_display_fg := time_display_fg w;
     progress_value := x; start_btn_text := start_btn_text w;
     status_bar_text := status_bar_text w |}.

Definition set_start_btn_text (s : string) (w : Widgets) : Widgets :=
  {| time_display_text := time_display_text w;
     time_display_fg := time_display_fg w;
     progress_value := progress_value w; start_btn_text := s;
     status_bar_text := status_bar_text w |}.

Definition set_status_bar_text (s : string) (w : Widgets) : Widgets :=
  {| time_display_text := time_display_text w;
     time_display_fg := time_display_fg w;
     progress_value := progress_value w; start_btn_text := start_btn_text w;
     status_bar_text := s |}.

Definition set_presets_file (f : file) (d : Disk) : Disk :=
  {| presets_file := f; stats_file := stats_file d; fault := fault d |}.

Definition set_stats_file (f : file) (d : Disk) : Disk :=
  {| presets_file := presets_file d; stats_file := f; fault := fault d |}.

(** ** The monad of methods: state and exceptions *)

Inductive outcome (A : Type) : Type :=
  | Ret (a : A) (s : App)
  | Raise (e : exn) (s : App).
Arguments Ret {A} a s.
Arguments Raise {A} e s.

Definition M (A : Type) : Type := App -> outcome A.

Definition ret {A} (a : A) : M A := fun s => Ret a s.
Definition raise {A} (e : exn) : M A := fun s => Raise e s.
Definition bind {A B} (c : M A) (k : A -> M B) : M B :=
  fun s => match c s with
           | Ret a s' => k a s'
           | Raise e s' => Raise e s'
           end.
Definition get : M App := fun s => Ret s s.
Definition modify (f : App -> App) : M unit := fun s => Ret tt (f s).
Definition modify_ui (f : Widgets -> Widgets) : M unit :=
  modify (fun s => set_ui (f (ui s)) s).
Definition when (b : bool) (c : M unit) : M unit := if b then c else ret tt.

(** The state a method leaves behind, whether it returned or raised. *)
Definition final {A} (o : outcome A) : App :=
  match o with Ret _ s => s | Raise _ s => s end.

Definition returns {A} (o : outcome A) : bool :=
  match o with Ret _ _ => true | Raise _ _ => false end.

Declare Scope py_scope.
Delimit Scope py_scope with py.
Notation "x <- c ;; k" := (bind c (fun x => k))
  (at level 61, c at next level, right associativity) : py_scope.
Notation "c ;; k" := (bind c (fun _ => k))
  (at level 61, right associativity) : py_scope.
Local Open Scope py_scope.

(** ** Python arithmetic on numbers *)

(** [max(0, x)]: Python returns the first argument unless the second is
    strictly greater. *)
Definition py_max0 (x : Q) : Q := if Qle_bool x 0 then 0 else x.

(** [x // y] and [x % y] for a positive [y], in exact arithmetic.  For a
    non-negative [x] the float operations give the same whole numbers; for a
    negative [x] of tiny magnitude the float [%] rounds up to [y] itself,
    which the exact remainder never reaches. *)
Definition py_floordiv (x y : Q) : Z := Qfloor (x / y).
Definition py_mod (x y : Q) : Q := x - y * inject_Z (py_floordiv x y).

(** [f"{n:02d}"] *)
Definition fmt_02d (n : Z) : string :=
  let s := NilZero.string_of_int (Z.to_int n) in
  if (String.length s <? 2)%nat then "0" ++ s else s.

(** The last lines of the timer branch of [update_display]: the text shown for
    a [remaining] value. *)
Definition display_text (rem : Q) : string :=
  let hours := py_floordiv rem 3600 in
  let minutes := py_floordiv (py_mod rem 3600) 60 in
  let seconds := Qfloor (py_mod rem 60) in
  if (0 <? hours)%Z
  then fmt_02d hours ++ ":" ++ fmt_02d minutes ++ ":" ++ fmt_02d seconds
  else fmt_02d minutes ++ ":" ++ fmt_02d seconds.

(** [self.themes[name]["fg"]] *)
Definition theme_fg (name : string) : option string :=
  if String.eqb name "default" then Some "#eee"
  else if String.eqb name "dark" then Some "#0f0"
  else if String.eqb name "light" then Some "#000"
  else if String.eqb name "neon" then Some "#ff00ff"
  else if String.eqb name "forest" then Some "#d8f3dc"
  else if String.eqb name "ocean" then Some "#e8f4fd"
  else if String.eqb name "sunset" then Some "#ffd23f"
  else None.

Definition is_timer_mode (m : string) : bool :=
  String.eqb m "timer" || String.eqb m "countdown" || String.eqb m "pomodoro".

(** ** Collaborators: sound, notification, statistics file *)

Definition play_sound (sound_type : string) : M unit :=
  s <- get ;;
  match sound_enabled s with
  | None => raise AttributeError
  | Some false => ret tt
  | Some true => modify (add_event (PlaySound sound_type))
  end.

Definition show_notification (message : string) : M unit :=
  modify (add_event (Notification message)).

(** [with open(path, 'w') as f: json.dump(doc, f, indent=2)] on the file
    selected by [put]. *)
Definition write_json (put : file -> Disk -> Disk) (doc : json) : M unit :=
  s <- get ;;
  match fault (disk s) with
  | OpenFails => raise OSError
  | DumpFails => modify (fun s => set_disk (put Truncated (disk s)) s) ;; raise OSError
  | WriteOk => modify (fun s => set_disk (put (Doc doc) (disk s)) s)
  end.

Definition save_stats : M unit :=
  s <- get ;;
  write_json set_stats_file (stats s).

(** [self.stats[key] += 1] *)
Definition stats_incr (key : string) : M unit :=
  s <- get ;;
  match stats s with
  | JObj kv =>
      match dict_get key kv with
      | None => raise KeyError
      | Some (JInt n) => modify (set_stats (JObj (dict_set key (JInt (n + 1)) kv)))
      | Some (JFloat q) => modify (set_stats (JObj (dict_set key (JFloat (q + 1)) kv)))
      | Some (JBool b) =>
          modify (set_stats (JObj (dict_set key (JInt (Z.b2z b + 1)) kv)))
      | Some _ => raise TypeError
      end
  | _ => raise TypeError
  end.

(** ** The engine *)

(** The colour branch of [update_display]. *)
Definition update_colors : M unit :=
  s <- get ;;
  if Qle_bool (remaining s) 60 then
    modify_ui (set_time_display_fg "#ff0000") ;;
    when (Qeq_bool (remaining s) 60) (play_sound "critical")
  else if Qle_bool (remaining s) 120 then
    modify_ui (set_time_display_fg "#ffff00") ;;
    when (Qeq_bool (remaining s) 120) (play_sound "warning")
  else
    match theme_fg (current_theme s) with
    | None => raise KeyError
    | Some c => modify_ui (set_time_display_fg c)
    end.

(** The finish check of [update_display]. *)
Definition check_finished : M unit :=
  s <- get ;;
  when (Qeq_bool (remaining s) 0)
    (modify (set_is_running false) ;;
     play_sound "finish" ;;
     show_notification "Timer Finished!" ;;
     stats_incr "completed_timers" ;;
     save_stats).

(** The body of [if self.is_running:] in the timer branch. *)
Definition running_step (now : Q) : M unit :=
  s <- get ;;
  let elapsed := now - start_time s in
  modify (set_remaining (py_max0 (duration s - elapsed))) ;;
  s <- get ;;
  (if Qeq_bool (duration s) 0 then raise ZeroDivisionError
   else modify_ui (set_progress_value
                     (((duration s - remaining s) / duration s) * 100))) ;;
  update_colors ;;
  check_finished.

Definition stopwatch_text (el : Q) : string :=
  fmt_02d (py_floordiv el 3600) ++ ":" ++
  fmt_02d (py_floordiv (py_mod el 3600) 60) ++ ":" ++
  fmt_02d (Qfloor (py_mod el 60)).

Definition update_display (now : Q) : M unit :=
  s <- get ;;
  if String.eqb (mode s) "clock" then ret tt
  else if String.eqb (mode s) "stopwatch" then
    when (is_running s) (modify (set_elapsed (now - start_time s))) ;;
    s <- get ;;
    modify_ui (set_time_display_text (stopwatch_text (elapsed s)))
  else if is_timer_mode (mode s) then
    when (is_running s) (running_step now) ;;
    s <- get ;;
    modify_ui (set_time_display_text (display_text (remaining s)))
  else ret tt.

Definition toggle_timer (now : Q) : M unit :=
  s <- get ;;
  if is_running s then
    modify (set_is_running false) ;;
    modify_ui (set_start_btn_text "▶ Start") ;;
    modify_ui (set_status_bar_text "Paused")
  else
    modify (set_is_running true) ;;
    modify_ui (set_start_btn_text "⏸ Pause") ;;
    modify_ui (set_status_bar_text "Running") ;;
    s <- get ;;
    if String.eqb (mode s) "stopwatch" then
      modify (set_start_time (now - elapsed s))
    else if is_timer_mode (mode s) then
      modify (set_start_time now)
    else ret tt.

Definition reset_timer (now : Q) : M unit :=
  modify (set_is_running false) ;;
  modify (set_elapsed 0) ;;
  s <- get ;;
  modify (set_remaining (duration s)) ;;
  modify_ui (set_start_btn_text "▶ Start") ;;
  modify_ui (set_progress_value 0) ;;
  update_display now ;;
  modify_ui (set_status_bar_text "Reset").

(** The status text is the one Python prints for an integer argument. *)
Definition set_duration (now : Q) (seconds : Q) : M unit :=
  modify (set_duration_field seconds) ;;
  modify (set_remaining seconds) ;;
  update_display now ;;
  modify_ui (set_status_bar_text
               ("Duration set to " ++
                NilZero.string_of_int (Z.to_int (py_floordiv seconds 60)) ++
                " minutes")).

(** ** Persistence of presets and statistics *)

(** [{name: vars(preset) for name, preset in self.presets.items()}] *)
Definition presets_document (ps : dict TimerPreset.t) : dict json :=
  fold_left (fun acc e => dict_set (fst e) (JObj (TimerPreset.vars (snd e))) acc)
            ps [].

Definition save_presets : M unit :=
  s <- get ;;
  write_json set_presets_file (JObj (presets_document (presets s))).

(** One value of the comprehension of [load_presets]: the keyword call needs a
    mapping. *)
Definition preset_of_json (j : json) : option TimerPreset.t :=
  match j with
  | JObj kw => TimerPreset.of_kwargs kw
  | _ => None
  end.

(** [{name: TimerPreset(...) for name, preset_data in data.items()}], entry by
    entry; [None] when a constructor call raises. *)
Fixpoint presets_of_document (items : dict json) (acc : dict TimerPreset.t)
  : option (dict TimerPreset.t) :=
  match items with
  | [] => Some acc
  | (k, j) :: rest =>
      match preset_of_json j with
      | None => None
      | Some p => presets_of_document rest (dict_set k p acc)
      end
  end.

Definition load_presets : M (dict TimerPreset.t) :=
  s <- get ;;
  match presets_file (disk s) with
  | NoFile => ret []
  | Truncated => raise JSONDecodeError
  | Doc (JObj data) =>
      match presets_of_document data [] with
      | Some ps => ret ps
      | None => raise TypeError
      end
  | Doc _ => raise AttributeError
  end.

Definition load_stats : M unit :=
  s <- get ;;
  match stats_file (disk s) with
  | NoFile => ret tt
  | Truncated => raise JSONDecodeError
  | Doc j => modify (set_stats j)
  end.

(** ** The remote-control thread *)

(** The [HTTPServer] object is either only constructed (bound and listening)
    or inside its request loop [serve_forever()]. *)
Inductive server_state : Type :=
  | Constructed (port : N)
  | Serving (port : N).



(** [run_server], the body of the thread.  [net] is what the socket calls
    give: [Some (ip, port)], or [None] when one of them raises, which the
    [except] clause prints.  The HTML page goes to a temporary file that
    nothing reads afterwards.  The function returns after updating the status
    bar: it never enters the request loop. *)
Definition run_server (net : option (string * N)) : M (option server_state) :=
  match net with
  | Some (ip, port) =>
      modify_ui (set_status_bar_text
                   ("Remote: http://" ++ ip ++ ":" ++
                    NilZero.string_of_uint (N.to_uint port))) ;;
      ret (Some (Constructed port))
  | None =>
      modify (add_event (PrintLine "Web server error")) ;;
      ret None
  end.

(** The thread is the only caller of [run_server]; its effect on the
    application is that of the call. *)
Definition start_web_server (net : option (string * N))
  : M (option server_state) :=
  run_server net.

(** ** The state built by [__init__] before the files are read *)

Definition default_stats : json :=
  JObj [("total_sessions", JInt 0); ("total_time", JInt 0);
        ("completed_timers", JInt 0); ("average_duration", JInt 0)].

Definition initial (d : Disk) : App :=
  {| mode := "clock"; is_running := false; start_time := 0; duration := 300;
     elapsed := 0; remaining := 0; current_theme := "default";
     sound_enabled := None; presets := []; stats := default_stats;
     ui := {| time_display_text := "00:00:00"; time_display_fg := "#eee";
              progress_value := 0; start_btn_text := "▶ Start";
              status_bar_text := "Ready" |};
     disk := d; events := [] |}.

Definition empty_disk : Disk :=
  {| presets_file := NoFile; stats_file := NoFile; fault := WriteOk |}.

Definition set_mode (m : string) (a : App) : App :=
  {| mode := m; is_running := is_running a; start_time := start_time a;
     duration := duration a; elapsed := elapsed a; remaining := remaining a;
     current_theme := current_theme a; sound_enabled := sound_enabled a;
     presets := presets a; stats := stats a; ui := ui a; disk := disk a;
     events := events a |}.

Definition set_sound_enabled (b : option bool) (a : App) : App :=
  {| mode := mode a; is_running := is_running a; start_time := start_time a;
     duration := duration a; elapsed := elapsed a; remaining := remaining a;
     current_theme := current_theme a; sound_enabled := b;
     presets := presets a; stats := stats a; ui := ui a; disk := disk a;
     events := events a |}.

(** [update_display] called at each of the given times in turn.  A call that
    raises leaves the state it reached to the next call: Tk reports the
    exception of a callback and keeps the application running. *)
Fixpoint ticks (times : list Q) (s : App) : App :=
  match times with
  | [] => s
  | t :: rest => ticks rest (final (update_display t s))
  end.

(** ** Relations between the state before and after a method *)

(** [keeps R c]: the state that [c] leaves, by return or by raise, is related
    by [R] to the state it started from. *)
Definition keeps {A} (R : App -> App -> Prop) (c : M A) : Prop :=
  forall s, R s (final (c s)).

(** The engine fields that the collaborators and the widget updates leave
    alone. *)
Definition engine_frame (s s' : App) : Prop :=
  remaining s' = remaining s /\ mode s' = mode s /\
  duration s' = duration s /\ start_time s' = start_time s /\
  elapsed s' = elapsed s /\ sound_enabled s' = sound_enabled s /\
  is_running s' = is_running s.

(** What the part of a tick after the recomputation may do to the engine: it
    can only stop it, and only at zero. *)
Definition tick_frame (s s' : App) : Prop :=
  remaining s' = remaining s /\ mode s' = mode s /\
  duration s' = duration s /\ start_time s' = start_time s /\
  elapsed s' = elapsed s /\ sound_enabled s' = sound_enabled s /\
  (is_running s' = is_running s \/
   (is_running s' = false /\ Qeq_bool (remaining s') 0 = true)).

(** No method but [set_duration] writes [duration]. *)
Definition same_duration (s s' : App) : Prop := duration s' = duration s.

(** ** Sample states and the spec's wording of the finish *)

(** A running countdown session used by the examples: [duration] seconds,
    sounds enabled, started at time [0]. *)
Definition started (duration : Q) : App :=
  final (toggle_timer 0
           (final (set_duration 0 duration
                     (set_sound_enabled (Some true)
                        (set_mode "timer" (initial empty_disk)))))).

(** [self.stats[key]], when the statistics are a dictionary holding [key]. *)
Definition stat (key : string) (s : App) : option json :=
  match stats s with
  | JObj kv => dict_get key kv
  | _ => None
  end.

(** C1 as the spec words it, for a tick of the state [s] at time [now]: the
    engine stops, [completed_timers] goes from [n] to [n + 1], and the stored
    [total_sessions] and [total_time] are updated, i.e. differ from the values
    before the tick. *)
Definition finish_updates_totals (s : App) (now : Q) (n : Z) : Prop :=
  let s' := final (update_display now s) in
  is_running s' = false /\
  stat "completed_timers" s = Some (JInt n) /\
  stat "completed_timers" s' = Some (JInt (n + 1)) /\
  stat "total_sessions" s' <> stat "total_sessions" s /\
  stat "total_time" s' <> stat "total_time" s.

(** A disk that holds an earlier presets document and on which the next write
    fails after the file was opened. *)
Definition failing_disk : Disk :=
  {| presets_file := Doc (JObj []); stats_file := Doc default_stats;
     fault := DumpFails |}.

Definition two_presets : dict TimerPreset.t :=
  [("tea", {| TimerPreset.name := JStr "tea";
              TimerPreset.duration := JInt 180;
              TimerPreset.warning_time := JInt 120;
              TimerPreset.critical_time := JInt 60;
              TimerPreset.sound_enabled := JBool true;
              TimerPreset.color_theme := JStr "default" |});
   ("talk", {| TimerPreset.name := JStr "talk";
               TimerPreset.duration := JInt 1200;
               TimerPreset.warning_time := JInt 300;
               TimerPreset.critical_time := JInt 30;
               TimerPreset.sound_enabled := JBool false;
               TimerPreset.color_theme := JStr "ocean" |})].

(** ** The numbers on the display *)

(** [hours], [minutes] and [seconds] as the timer branch of [update_display]
    computes them from [self.remaining]. *)
Definition display_hours (rem : Q) : Z := py_floordiv rem 3600.
Definition display_minutes (rem : Q) : Z := py_floordiv (py_mod rem 3600) 60.
Definition display_seconds (rem : Q) : Z := Qfloor (py_mod rem 60).

(** A stopwatch started at time 10 on the freshly built application. *)
Definition stopwatch_started : App :=
  final (toggle_timer 10 (set_mode "stopwatch" (initial empty_disk))).

(** The state of a running tick after its first statement, the recomputation
    of [remaining], and after its second, the progress bar. *)
Definition after_recompute (now : Q) (s : App) : App :=
  set_remaining (py_max0 (duration s - (now - start_time s))) s.

Definition after_progress (now : Q) (s : App) : App :=
  let s1 := after_recompute now s in
  set_ui (set_progress_value
            ((duration s1 - remaining s1) / duration s1 * 100) (ui s1)) s1.

(** [s'] is [s] with other widget contents. *)
Definition only_ui (s s' : App) : Prop := exists w, s' = set_ui w s.

(** The progress bar keeps its value. *)
Definition same_progress (s s' : App) : Prop :=
  progress_value (ui s') = progress_value (ui s).

(** The timer application with a theme name that the table does not hold. *)
Definition with_theme (name : string) (a : App) : App :=
  {| mode := mode a; is_running := is_running a; start_time := start_time a;
     duration := duration a; elapsed := elapsed a; remaining := remaining a;
     current_theme := name; sound_enabled := sound_enabled a;
     presets := presets a; stats := stats a; ui := ui a; disk := disk a;
     events := events a |}.

(** ** Start-up *)

(** [__init__], from the attributes of [initial] on: the presets and the
    statistics are read, the remote-control thread is started and the update
    loop gets its first call.  An exception leaves the constructor, and no
    application object exists. *)
Definition init (d : Disk) (net : option (string * N)) (now : Q) : outcome unit :=
  (ps <- load_presets ;;
   modify (set_presets ps) ;;
   load_stats ;;
   start_web_server net ;;
   update_display now) (initial d).

(** ** Modes *)

(** [str.capitalize()] on ASCII text: the first letter in upper case, the
    others in lower case. *)
Definition ascii_upper (c : ascii) : ascii :=
  let n := nat_of_ascii c in
  if ((97 <=? n) && (n <=? 122))%nat then ascii_of_nat (n - 32) else c.

Definition ascii_lower (c : ascii) : ascii :=
  let n := nat_of_ascii c in
  if ((65 <=? n) && (n <=? 90))%nat then ascii_of_nat (n + 32) else c.

Fixpoint lower (s : string) : string :=
  match s with
  | EmptyString => EmptyString
  | String c r => String (ascii_lower c) (lower r)
  end.

Definition capitalize (s : string) : string :=
  match s with
  | EmptyString => EmptyString
  | String c r => String (ascii_upper c) (lower r)
  end.

(** The label [sub_display] is not a field of [Widgets]: the methods that
    write it take its text and return the text it has afterwards. *)

(** [show_clock]: the first run of its [update_clock]; [time_str] and
    [date_str] are the two [strftime] results. *)
Definition show_clock (time_str date_str : string) (sub : string) : M string :=
  s <- get ;;
  if String.eqb (mode s) "clock" then
    modify_ui (set_time_display_text time_str) ;;
    ret date_str
  else ret sub.

Definition start_pomodoro (sub : string) : M string :=
  modify (set_duration_field 1500) ;;
  ret "Work Session - 25 minutes".

Definition switch_mode (new_mode : string) (now : Q)
    (time_str date_str : string) (sub : string) : M string :=
  modify (set_mode new_mode) ;;
  reset_timer now ;;
  modify_ui (set_status_bar_text ("Mode: " ++ capitalize new_mode)) ;;
  if String.eqb new_mode "clock" then show_clock time_str date_str sub
  else if String.eqb new_mode "pomodoro" then start_pomodoro sub
  else ret sub.

(** ** Settings, themes and presets *)

(** A number as Python arithmetic takes it; [bool] counts as an integer. *)
Definition py_number (j : json) : option Q :=
  match j with
  | JInt n => Some (inject_Z n)
  | JFloat q => Some q
  | JBool b => Some (inject_Z (Z.b2z b))
  | _ => None
  end.

(** [self.stats[key]] as an expression. *)
Definition stats_item (key : string) : M json :=
  s <- get ;;
  match stats s with
  | JObj kv =>
      match dict_get key kv with
      | Some v => ret v
      | None => raise KeyError
      end
  | _ => raise TypeError
  end.

(** [open_settings].  The widgets of the settings window are not part of the
    state; of the method remain the creation of [self.sound_enabled] and the
    evaluation of the statistics text, which reads three entries and divides
    [total_time]. *)
Definition open_settings : M unit :=
  modify (set_sound_enabled (Some true)) ;;
  _ <- stats_item "total_sessions" ;;
  _ <- stats_item "completed_timers" ;;
  t <- stats_item "total_time" ;;
  match py_number t with
  | Some _ => ret tt
  | None => raise TypeError
  end.

(** [change_theme].  Of the widgets it recolours, [Widgets] holds the
    foreground of the time display. *)
Definition change_theme (theme_name : string) : M unit :=
  modify (with_theme theme_name) ;;
  match theme_fg theme_name with
  | None => raise KeyError
  | Some fg => modify_ui (set_time_display_fg fg)
  end.

(** The JSON number for a duration: an integral value is an integer. *)
Definition number_json (q : Q) : json :=
  if Pos.eqb (Qden (Qred q)) 1 then JInt (Qnum (Qred q)) else JFloat q.

(** The preset that [save_preset] builds from the current configuration. *)
Definition current_preset (name : string) (sound : bool) (s : App)
  : TimerPreset.t :=
  {| TimerPreset.name := JStr name;
     TimerPreset.duration := number_json (duration s);
     TimerPreset.warning_time := JInt 120;
     TimerPreset.critical_time := JInt 60;
     TimerPreset.sound_enabled := JBool sound;
     TimerPreset.color_theme := JStr (current_theme s) |}.

(** [save_preset]; [answer] is what the name dialog returned ([None] when it
    was cancelled). *)
Definition save_preset (answer : option string) : M unit :=
  match answer with
  | None => ret tt
  | Some EmptyString => ret tt
  | Some name =>
      s <- get ;;
      match sound_enabled s with
      | None => raise AttributeError
      | Some b =>
          modify (set_presets
                    (dict_set name (current_preset name b s) (presets s))) ;;
          save_presets ;;
          modify_ui (set_status_bar_text ("Preset '" ++ name ++ "' saved"))
      end
  end.

(** A preset whose fields have the types of the dataclass annotations, as
    [save_preset] creates them: name, duration, sound flag, theme. *)
Definition typed_preset (p : TimerPreset.t)
  : option (string * Q * bool * string) :=
  match TimerPreset.name p, py_number (TimerPreset.duration p),
        TimerPreset.sound_enabled p, TimerPreset.color_theme p with
  | JStr n, Some d, JBool b, JStr th => Some (n, d, b, th)
  | _, _, _, _ => None
  end.

(** [apply_preset] on a preset of those types. *)
Definition apply_preset (now : Q) (name : string) (d : Q) (sound : bool)
    (theme : string) : M unit :=
  modify (set_duration_field d) ;;
  modify (set_remaining d) ;;
  s <- get ;;
  match sound_enabled s with
  | None => raise AttributeError
  | Some _ => modify (set_sound_enabled (Some sound))
  end ;;
  change_theme theme ;;
  update_display now ;;
  modify_ui (set_status_bar_text ("Loaded preset: " ++ name)).

(** ** Transparency *)

Definition levels : list Q := [3 # 10; 5 # 10; 7 # 10; 9 # 10; 1].

(** [min(levels, key=lambda x: abs(x - current))]: the first element with the
    least key. *)
Fixpoint nearest_from (current best : Q) (l : list Q) : Q :=
  match l with
  | [] => best
  | x :: r =>
      if Qle_bool (Qabs (best - current)) (Qabs (x - current))
      then nearest_from current best r
      else nearest_from current x r
  end.

Definition nearest (current : Q) : option Q :=
  match levels with
  | [] => None
  | x :: r => Some (nearest_from current x r)
  end.

(** [levels.index(x)] *)
Fixpoint index_of (x : Q) (l : list Q) : option nat :=
  match l with
  | [] => None
  | y :: r => if Qeq_bool y x then Some O
              else option_map S (index_of x r)
  end.

(** [toggle_transparency]: the new value of [self.transparency], which the
    method also gives to the window as [-alpha] outside macOS.  [None] is the
    [ValueError] of [min] or [index]. *)
Definition toggle_transparency (current : Q) : option Q :=
  match nearest current with
  | None => None
  | Some x =>
      match index_of x levels with
      | None => None
      | Some i => nth_error levels ((i + 1) mod List.length levels)
      end
  end.

(** [toggle_transparency] pressed [n] times in a row. *)
Fixpoint repeat_toggle (n : nat) (current : Q) : option Q :=
  match n with
  | O => Some current
  | S n' =>
      match toggle_transparency current with
      | None => None
      | Some x => repeat_toggle n' x
      end
  end.

(** * Properties *)

(** ** Reasoning tools *)

(** Unfolds the monad and the record updates, leaving the arithmetic alone. *)
Ltac msimpl :=
  cbv beta iota zeta delta
    [bind get modify modify_ui when ret raise
     set_is_running set_start_time set_duration_field set_elapsed
     set_remaining set_stats set_presets set_ui set_disk add_event set_mode
     set_sound_enabled
     set_time_display_text set_time_display_fg set_progress_value
     set_start_btn_text set_status_bar_text set_presets_file set_stats_file];
  cbn beta iota zeta delta
    [final returns
     mode is_running start_time duration elapsed remaining current_theme
     sound_enabled presets stats ui disk events
     time_display_text time_display_fg progress_value start_btn_text
     status_bar_text presets_file stats_file fault].

Lemma py_max0_nonneg (x : Q) : 0 <= py_max0 x.
Proof.
  unfold py_max0. destruct (Qle_bool x 0) eqn:E.
  - apply Qle_refl.
  - apply Qnot_lt_le. intro H. apply Qlt_le_weak in H.
    apply Qle_bool_iff in H. congruence.
Qed.

Lemma py_max0_mono (x y : Q) : x <= y -> py_max0 x <= py_max0 y.
Proof.
  intro H. unfold py_max0.
  destruct (Qle_bool x 0) eqn:Ex, (Qle_bool y 0) eqn:Ey.
  - apply Qle_refl.
  - apply Qnot_lt_le. intro Hy. apply Qlt_le_weak in Hy.
    apply Qle_bool_iff in Hy. congruence.
  - apply Qle_bool_iff in Ey. assert (x <= 0) as Hx by (eapply Qle_trans; eauto).
    apply Qle_bool_iff in Hx. congruence.
  - exact H.
Qed.

Lemma py_max0_zero (x : Q) : x <= 0 -> py_max0 x = 0.
Proof.
  intro H. unfold py_max0. apply Qle_bool_iff in H. now rewrite H.
Qed.

Lemma timer_mode_not_clock (m : string) :
  is_timer_mode m = true ->
  String.eqb m "clock" = false /\ String.eqb m "stopwatch" = false.
Proof.
  unfold is_timer_mode. intro H.
  apply orb_true_iff in H. destruct H as [H | H].
  - apply orb_true_iff in H. destruct H as [H | H];
      apply String.eqb_eq in H; subst m; split; reflexivity.
  - apply String.eqb_eq in H; subst m; split; reflexivity.
Qed.

Section Dict.
Context {V : Type}.

Lemma dict_get_set_same (k : string) (v : V) (d : dict V) :
  dict_get k (dict_set k v d) = Some v.
Proof.
  induction d as [| [k' v'] d IH]; simpl.
  - now rewrite String.eqb_refl.
  - destruct (String.eqb k k') eqn:E; simpl; rewrite E; auto.
Qed.

Lemma dict_get_set_other (k k' : string) (v : V) (d : dict V) :
  k <> k' -> dict_get k' (dict_set k v d) = dict_get k' d.
Proof.
  intro Hne. induction d as [| [k0 v0] d IH]; simpl.
  - destruct (String.eqb k' k) eqn:E; auto.
    apply String.eqb_eq in E. congruence.
  - destruct (String.eqb k k0) eqn:E; simpl.
    + apply String.eqb_eq in E. subst k0.
      destruct (String.eqb k' k) eqn:E'; auto.
      apply String.eqb_eq in E'. congruence.
    + now rewrite IH.
Qed.

(** Setting a key that the dictionary does not hold appends the entry. *)
Lemma dict_set_fresh (k : string) (v : V) (d : dict V) :
  ~ In k (dict_keys d) -> dict_set k v d = (d ++ [(k, v)])%list.
Proof.
  induction d as [| [k' v'] d IH]; simpl; intro Hn; auto.
  destruct (String.eqb k k') eqn:E.
  - apply String.eqb_eq in E. subst. tauto.
  - f_equal. apply IH. tauto.
Qed.
End Dict.

(** ** The tick in the timer modes *)

Lemma update_display_paused (now : Q) (s : App) :
  is_timer_mode (mode s) = true -> is_running s = false ->
  update_display now s =
  Ret tt (set_ui (set_time_display_text (display_text (remaining s)) (ui s)) s).
Proof.
  intros Hm Hr. destruct (timer_mode_not_clock _ Hm) as [Hc Hs].
  destruct s; cbn [mode is_running] in *; subst.
  unfold update_display. msimpl. rewrite Hc, Hs, Hm. reflexivity.
Qed.

Section Keeps.
Variable R : App -> App -> Prop.
Hypothesis R_refl : forall s, R s s.
Hypothesis R_trans : forall s1 s2 s3, R s1 s2 -> R s2 s3 -> R s1 s3.

Lemma keeps_bind {A B} (c : M A) (k : A -> M B) :
  keeps R c -> (forall a, keeps R (k a)) -> keeps R (bind c k).
Proof.
  intros Hc Hk s. unfold bind. specialize (Hc s).
  destruct (c s) as [a s1 | e s1]; cbn [final] in *.
  - eapply R_trans; [exact Hc | apply Hk].
  - exact Hc.
Qed.

Lemma keeps_get_bind {B} (k : App -> M B) :
  (forall s, R s (final (k s s))) -> keeps R (bind get k).
Proof. intros H s. apply H. Qed.

Lemma keeps_ret {A} (a : A) : keeps R (ret a).
Proof. intro s. apply R_refl. Qed.

Lemma keeps_raise {A} (e : exn) : keeps R (@raise A e).
Proof. intro s. apply R_refl. Qed.

Lemma keeps_when (b : bool) (c : M unit) :
  keeps R c -> keeps R (when b c).
Proof. intro H. destruct b; [exact H | apply keeps_ret]. Qed.
End Keeps.

Lemma engine_frame_refl (s : App) : engine_frame s s.
Proof. unfold engine_frame; repeat split; reflexivity. Qed.

Lemma engine_frame_trans (s1 s2 s3 : App) :
  engine_frame s1 s2 -> engine_frame s2 s3 -> engine_frame s1 s3.
Proof.
  unfold engine_frame. intros H1 H2.
  decompose [and] H1. decompose [and] H2. repeat split; congruence.
Qed.

Lemma tick_frame_refl (s : App) : tick_frame s s.
Proof. unfold tick_frame; repeat split; auto. Qed.

Lemma tick_frame_trans (s1 s2 s3 : App) :
  tick_frame s1 s2 -> tick_frame s2 s3 -> tick_frame s1 s3.
Proof.
  unfold tick_frame.
  intros (Hr1 & Hm1 & Hd1 & Hs1 & He1 & Hn1 & H1)
         (Hr2 & Hm2 & Hd2 & Hs2 & He2 & Hn2 & H2).
  repeat split; try congruence.
  destruct H2 as [H2 | [H2 H2']]; [| now right].
  destruct H1 as [H1 | [H1 H1']]; [left; congruence |].
  right. split; [congruence |]. now rewrite Hr2.
Qed.

Lemma engine_frame_tick_frame (s s' : App) :
  engine_frame s s' -> tick_frame s s'.
Proof.
  unfold engine_frame, tick_frame. intros H. decompose [and] H.
  repeat split; auto.
Qed.

Lemma keeps_engine_tick {A} (c : M A) :
  keeps engine_frame c -> keeps tick_frame c.
Proof. intros H s. apply engine_frame_tick_frame, H. Qed.

Lemma engine_bind {A B} (c : M A) (k : A -> M B) :
  keeps engine_frame c -> (forall a, keeps engine_frame (k a)) ->
  keeps engine_frame (bind c k).
Proof. apply keeps_bind, engine_frame_trans. Qed.

Lemma engine_when (b : bool) (c : M unit) :
  keeps engine_frame c -> keeps engine_frame (when b c).
Proof. apply keeps_when, engine_frame_refl. Qed.

Lemma tick_bind {A B} (c : M A) (k : A -> M B) :
  keeps tick_frame c -> (forall a, keeps tick_frame (k a)) ->
  keeps tick_frame (bind c k).
Proof. apply keeps_bind, tick_frame_trans. Qed.

Lemma keeps_modify_ui (f : Widgets -> Widgets) :
  keeps engine_frame (modify_ui f).
Proof. intro s. unfold engine_frame. msimpl. repeat split. Qed.

Lemma keeps_add_event (e : event) : keeps engine_frame (modify (add_event e)).
Proof. intro s. unfold engine_frame. msimpl. repeat split. Qed.

Lemma keeps_play_sound (k : string) : keeps engine_frame (play_sound k).
Proof.
  apply keeps_get_bind. intro s.
  destruct (sound_enabled s) as [[|]|].
  - apply keeps_add_event.
  - apply engine_frame_refl.
  - apply engine_frame_refl.
Qed.

Lemma keeps_show_notification (m : string) :
  keeps engine_frame (show_notification m).
Proof. apply keeps_add_event. Qed.

Lemma keeps_set_stats (j : json) : keeps engine_frame (modify (set_stats j)).
Proof. intro s. unfold engine_frame. msimpl. repeat split. Qed.

Lemma keeps_stats_incr (k : string) : keeps engine_frame (stats_incr k).
Proof.
  apply keeps_get_bind. intro s.
  destruct (stats s) as [| | | | | |kv]; try apply engine_frame_refl.
  destruct (dict_get k kv) as [[]|];
    (apply engine_frame_refl || apply keeps_set_stats).
Qed.

Lemma keeps_write_json (put : file -> Disk -> Disk) (doc : json) :
  keeps engine_frame (write_json put doc).
Proof.
  apply keeps_get_bind. intro s.
  destruct (fault (disk s)); unfold engine_frame; msimpl; repeat split.
Qed.

Lemma keeps_save_stats : keeps engine_frame save_stats.
Proof. apply keeps_get_bind. intro s. apply keeps_write_json. Qed.

Lemma keeps_update_colors : keeps engine_frame update_colors.
Proof.
  apply keeps_get_bind. intro s.
  destruct (Qle_bool (remaining s) 60); [| destruct (Qle_bool (remaining s) 120)].
  - apply engine_bind; [apply keeps_modify_ui |].
    intros _. apply engine_when, keeps_play_sound.
  - apply engine_bind; [apply keeps_modify_ui |].
    intros _. apply engine_when, keeps_play_sound.
  - destruct (theme_fg (current_theme s)).
    + apply keeps_modify_ui.
    + apply engine_frame_refl.
Qed.

(** After the engine stopped itself, the rest of the finish branch. *)
Lemma keeps_finish_effects :
  keeps engine_frame
    (play_sound "finish" ;; show_notification "Timer Finished!" ;;
     stats_incr "completed_timers" ;; save_stats).
Proof.
  apply engine_bind; [apply keeps_play_sound | intros _].
  apply engine_bind; [apply keeps_show_notification | intros _].
  apply engine_bind; [apply keeps_stats_incr | intros _].
  apply keeps_save_stats.
Qed.

Lemma keeps_check_finished : keeps tick_frame check_finished.
Proof.
  apply keeps_get_bind. intro s.
  destruct (Qeq_bool (remaining s) 0) eqn:E; cbn [when].
  - unfold bind at 1. unfold modify at 1.
    pose proof (keeps_finish_effects (set_is_running false s)) as H.
    unfold engine_frame in H. decompose [and] H. unfold tick_frame.
    repeat split; auto.
    right. split; [assumption |].
    match goal with H : remaining _ = _ |- _ => rewrite H end. exact E.
  - apply tick_frame_refl.
Qed.

(** What one tick of a running countdown leaves behind, whether the tick
    returned or raised part-way. *)
Lemma running_step_spec (now : Q) (s : App) :
  let s' := final (running_step now s) in
  remaining s' = py_max0 (duration s - (now - start_time s)) /\
  mode s' = mode s /\ duration s' = duration s /\
  start_time s' = start_time s /\ elapsed s' = elapsed s /\
  sound_enabled s' = sound_enabled s /\
  (is_running s' = is_running s \/
   (is_running s' = false /\ Qeq_bool (remaining s') 0 = true)).
Proof.
  unfold running_step. unfold bind at 1. unfold get at 1.
  unfold bind at 1. unfold modify at 1.
  set (s1 := set_remaining (py_max0 (duration s - (now - start_time s))) s).
  match goal with |- context [final (?c s1)] =>
    assert (H : keeps tick_frame c) end.
  { apply keeps_get_bind. intro s2.
    apply tick_bind.
    - destruct (Qeq_bool (duration s2) 0).
      + intro s3. apply tick_frame_refl.
      + apply keeps_engine_tick, keeps_modify_ui.
    - intros _. apply tick_bind.
      + apply keeps_engine_tick, keeps_update_colors.
      + intros _. apply keeps_check_finished. }
  specialize (H s1). unfold tick_frame in H. cbn zeta. exact H.
Qed.

Lemma update_display_timer (now : Q) (s : App) :
  is_timer_mode (mode s) = true ->
  update_display now s =
  (when (is_running s) (running_step now) ;;
   s <- get ;;
   modify_ui (set_time_display_text (display_text (remaining s)))) s.
Proof.
  intros Hm. destruct (timer_mode_not_clock _ Hm) as [Hc Hs].
  unfold update_display. unfold bind at 1. unfold get at 1.
  now rewrite Hc, Hs, Hm.
Qed.

Lemma update_display_running (now : Q) (s : App) :
  is_timer_mode (mode s) = true -> is_running s = true ->
  let s' := final (update_display now s) in
  remaining s' = py_max0 (duration s - (now - start_time s)) /\
  mode s' = mode s /\ duration s' = duration s /\
  start_time s' = start_time s /\ elapsed s' = elapsed s /\
  sound_enabled s' = sound_enabled s /\
  (is_running s' = true \/
   (is_running s' = false /\ Qeq_bool (remaining s') 0 = true)).
Proof.
  intros Hm Hr. cbv zeta.
  pose proof (running_step_spec now s) as H. cbv zeta in H.
  rewrite Hr in H.
  rewrite (update_display_timer now s Hm), Hr. cbn [when].
  unfold bind, get.
  destruct (running_step now s) as [[] s1 | e s1]; cbn [final] in H;
    cbv beta iota.
  - pose proof (keeps_modify_ui
      (set_time_display_text (display_text (remaining s1))) s1) as Hu.
    destruct H as (Hr1 & Hm1 & Hd1 & Hs1 & He1 & Hn1 & Hrun).
    destruct Hu as (Ur & Um & Ud & Us & Ue & Un & Urun).
    repeat split; try congruence; rewrite Ur, Urun; exact Hrun.
  - exact H.
Qed.

(** A stopped countdown ignores ticks: only the text of the display is
    rewritten. *)
Lemma ticks_stopped (later : list Q) : forall s : App,
  is_timer_mode (mode s) = true -> is_running s = false ->
  let s' := ticks later s in
  is_running s' = false /\ remaining s' = remaining s /\
  mode s' = mode s /\ duration s' = duration s /\
  stats s' = stats s /\ events s' = events s /\ disk s' = disk s.
Proof.
  induction later as [| t later IH]; intros s Hm Hr; cbn [ticks].
  - repeat split; assumption.
  - rewrite (update_display_paused t s Hm Hr). cbn [final].
    set (s1 := set_ui _ s).
    destruct (IH s1 Hm Hr) as (H1 & H2 & H3 & H4 & H5 & H6 & H7).
    repeat split; assumption.
Qed.

(** ** Monotonicity of the countdown *)

(** C6. While a Timer/Countdown/Pomodoro session is running and nothing but
    ticks happens, a later tick never shows a larger [remaining] than an
    earlier one, and [remaining] is never negative. *)
Theorem remaining_monotone_while_running (s : App) (t1 t2 : Q) :
  is_timer_mode (mode s) = true -> is_running s = true -> t1 < t2 ->
  let s1 := final (update_display t1 s) in
  let s2 := final (update_display t2 s1) in
  remaining s2 <= remaining s1 /\ 0 <= remaining s2.
Proof.
  intros Hm Hr Hlt. cbv zeta.
  destruct (update_display_running t1 s Hm Hr)
    as (Hrem & Hmode & Hdur & Hst & _ & _ & Hrun).
  set (s1 := final (update_display t1 s)) in *.
  assert (Hm1 : is_timer_mode (mode s1) = true) by (now rewrite Hmode).
  destruct Hrun as [Hrun | [Hrun Hzero]].
  - destruct (update_display_running t2 s1 Hm1 Hrun) as (Hrem2 & _).
    rewrite Hrem2, Hrem, Hdur, Hst. split.
    + apply py_max0_mono. lra.
    + apply py_max0_nonneg.
  - rewrite (update_display_paused t2 s1 Hm1 Hrun). cbn [final].
    change (remaining (set_ui _ s1)) with (remaining s1). split.
    + apply Qle_refl.
    + rewrite Hrem. apply py_max0_nonneg.
Qed.

Lemma remaining_monotone_while_running_witness :
  let s1 := final (update_display 100 (started 300)) in
  let s2 := final (update_display 250 s1) in
  remaining s2 <= remaining s1 /\ 0 <= remaining s2.
Proof.
  apply (remaining_monotone_while_running (started 300) 100 250);
    reflexivity.
Defined.

(** ** Reset *)

(** A tick on an engine that is not running touches the widgets only, in
    every mode. *)
Lemma update_display_not_running (now : Q) (s : App) :
  is_running s = false ->
  exists w, update_display now s = Ret tt (set_ui w s).
Proof.
  intro Hr. unfold update_display. unfold bind at 1. unfold get at 1.
  destruct (String.eqb (mode s) "clock").
  - exists (ui s). destruct s; reflexivity.
  - destruct (String.eqb (mode s) "stopwatch").
    + rewrite Hr. cbn [when]. unfold bind, ret, get, modify_ui, modify.
      eexists. reflexivity.
    + destruct (is_timer_mode (mode s)).
      * rewrite Hr. cbn [when]. unfold bind, ret, get, modify_ui, modify.
        eexists. reflexivity.
      * exists (ui s). destruct s; reflexivity.
Qed.

(** C10. [reset_timer] returns normally from every state; it stops the
    engine, zeroes [elapsed] and puts [remaining] back to [duration], and
    leaves [duration], [mode] and everything outside the run segment as they
    were. *)
Theorem reset_timer_frame (s : App) (now : Q) :
  exists s', reset_timer now s = Ret tt s' /\
    is_running s' = false /\ elapsed s' = 0 /\ remaining s' = duration s /\
    duration s' = duration s /\ mode s' = mode s /\
    start_time s' = start_time s /\ current_theme s' = current_theme s /\
    sound_enabled s' = sound_enabled s /\ presets s' = presets s /\
    stats s' = stats s /\ disk s' = disk s /\ events s' = events s.
Proof.
  unfold reset_timer.
  do 2 (unfold bind at 1; unfold modify at 1).
  unfold bind at 1. unfold get at 1.
  unfold bind at 1. unfold modify at 1.
  do 2 (unfold bind at 1; unfold modify_ui at 1; unfold modify at 1).
  unfold bind at 1.
  match goal with |- context [update_display now ?x] =>
    destruct (update_display_not_running now x eq_refl) as [w Hw]; rewrite Hw
  end.
  unfold modify_ui, modify.
  eexists. split; [reflexivity |]. repeat split.
Qed.

(** ** Setting the duration *)

Lemma update_display_same_duration (now : Q) :
  keeps same_duration (update_display now).
Proof.
  assert (Htrans : forall s1 s2 s3,
             same_duration s1 s2 -> same_duration s2 s3 -> same_duration s1 s3)
    by (unfold same_duration; congruence).
  apply keeps_get_bind. intro s.
  destruct (String.eqb (mode s) "clock"); [reflexivity |].
  destruct (String.eqb (mode s) "stopwatch").
  - apply keeps_bind; [exact Htrans | | intros _; intro s1; reflexivity].
    apply keeps_when; [reflexivity | intro s1; reflexivity].
  - destruct (is_timer_mode (mode s)); [| reflexivity].
    apply keeps_bind; [exact Htrans | | intros _; intro s1; reflexivity].
    apply keeps_when; [reflexivity |].
    intro s1. apply (running_step_spec now s1).
Qed.

(** C5, as the code has it. [set_duration] validates nothing.  In every state
    and for every argument, negative ones included, the argument is stored in
    [duration]; on an engine that is not running the call returns normally
    and [remaining] takes the argument as well. *)
Theorem set_duration_unvalidated (s : App) (now seconds : Q) :
  duration (final (set_duration now seconds s)) = seconds /\
  (is_running s = false ->
   exists s', set_duration now seconds s = Ret tt s' /\
     duration s' = seconds /\ remaining s' = seconds /\
     is_running s' = false).
Proof.
  split.
  - unfold set_duration.
    do 2 (unfold bind at 1; unfold modify at 1).
    unfold bind at 1.
    set (s1 := set_remaining seconds (set_duration_field seconds s)).
    pose proof (update_display_same_duration now s1) as H.
    unfold same_duration in H.
    destruct (update_display now s1) as [[] s2 | e s2]; cbn [final] in H |- *.
    + unfold modify_ui, modify. cbn [final]. exact H.
    + exact H.
  - intro Hr. unfold set_duration.
    do 2 (unfold bind at 1; unfold modify at 1).
    unfold bind at 1.
    match goal with |- context [update_display now ?x] =>
      destruct (update_display_not_running now x Hr) as [w Hw]; rewrite Hw
    end.
    unfold modify_ui, modify.
    eexists. split; [reflexivity |]. repeat split. exact Hr.
Qed.

Lemma set_duration_unvalidated_witness :
  exists s', set_duration 0 (-5) (initial empty_disk) = Ret tt s' /\
    duration s' = -5 /\ remaining s' = -5 /\ is_running s' = false.
Proof.
  apply (proj2 (set_duration_unvalidated (initial empty_disk) 0 (-5))).
  reflexivity.
Defined.

(** C5, as the spec words it, fails: [set_duration(-5)] on the freshly built
    application in timer mode is accepted; the previous duration of 300
    seconds is overwritten and no exception is raised. *)
Lemma set_duration_negative_accepted :
  let s := set_mode "timer" (initial empty_disk) in
  duration s = 300 /\
  returns (set_duration 0 (-5) s) = true /\
  duration (final (set_duration 0 (-5) s)) = -5 /\
  remaining (final (set_duration 0 (-5) s)) = -5.
Proof. vm_compute. repeat split. Qed.

(** ** The finishing tick *)

Lemma bind_ret {A B} (c : M A) (k : A -> M B) (s s1 : App) (a : A) :
  c s = Ret a s1 -> bind c k s = k a s1.
Proof. intro H. unfold bind. now rewrite H. Qed.

Lemma play_sound_enabled (k : string) (s : App) (b : bool) :
  sound_enabled s = Some b ->
  play_sound k s = Ret tt (if b then add_event (PlaySound k) s else s).
Proof.
  intro H. unfold play_sound, bind, get. rewrite H. now destruct b.
Qed.

Lemma stats_incr_int (key : string) (s : App) (kv : dict json) (n : Z) :
  stats s = JObj kv -> dict_get key kv = Some (JInt n) ->
  stats_incr key s =
  Ret tt (set_stats (JObj (dict_set key (JInt (n + 1)) kv)) s).
Proof.
  intros Hs Hk. unfold stats_incr, bind, get. now rewrite Hs, Hk.
Qed.

(** [save_stats] touches the statistics file only; when the write goes
    through, the file holds the statistics of the moment. *)
Lemma save_stats_spec (s : App) :
  engine_frame s (final (save_stats s)) /\
  stats (final (save_stats s)) = stats s /\
  events (final (save_stats s)) = events s /\
  fault (disk (final (save_stats s))) = fault (disk s) /\
  (fault (disk s) = WriteOk ->
   returns (save_stats s) = true /\
   stats_file (disk (final (save_stats s))) = Doc (stats s)).
Proof.
  split; [apply keeps_save_stats |].
  unfold save_stats, write_json, bind, get, modify, raise.
  destruct (fault (disk s)) eqn:E; cbn; rewrite ?E;
    repeat split; intros; congruence.
Qed.

(** The tick of a running countdown whose deadline has passed, up to the
    point where the statistics are written: the state [s'] handed to
    [save_stats]. *)
Lemma running_step_finish (now : Q) (s : App) (b : bool) (kv : dict json)
    (n : Z) :
  sound_enabled s = Some b ->
  Qeq_bool (duration s) 0 = false ->
  duration s - (now - start_time s) <= 0 ->
  stats s = JObj kv -> dict_get "completed_timers" kv = Some (JInt n) ->
  exists s', running_step now s = save_stats s' /\
    remaining s' = 0 /\ is_running s' = false /\ mode s' = mode s /\
    stats s' = JObj (dict_set "completed_timers" (JInt (n + 1)) kv) /\
    events s' =
      (events s ++ (if b then [PlaySound "finish"] else []) ++
       [Notification "Timer Finished!"])%list /\
    disk s' = disk s.
Proof.
  intros Hse Hd Hle Hst Hct.
  unfold running_step.
  unfold bind at 1. unfold get at 1.
  unfold bind at 1. unfold modify at 1.
  rewrite (py_max0_zero _ Hle).
  set (s1 := set_remaining 0 s).
  unfold bind at 1. unfold get at 1.
  unfold bind at 1.
  change (duration s1) with (duration s). rewrite Hd.
  unfold modify_ui at 1. unfold modify at 1.
  set (s2 := set_ui _ s1).
  unfold bind at 1. unfold update_colors.
  unfold bind at 1. unfold get at 1.
  change (remaining s2) with 0.
  change (Qle_bool 0 60) with true. change (Qeq_bool 0 60) with false.
  cbv iota. cbn [when].
  unfold bind at 1. unfold modify_ui at 1. unfold modify at 1.
  unfold ret at 1.
  set (s3 := set_ui _ s2).
  unfold check_finished.
  unfold bind at 1. unfold get at 1.
  change (remaining s3) with 0. change (Qeq_bool 0 0) with true. cbn [when].
  unfold bind at 1. unfold modify at 1.
  set (s4 := set_is_running false s3).
  rewrite (bind_ret _ _ _ _ _ (play_sound_enabled "finish" s4 b Hse)).
  set (s5 := if b then _ else _).
  unfold bind at 1. unfold show_notification, modify at 1.
  set (s6 := add_event _ s5).
  assert (Hs6 : stats s6 = JObj kv) by (subst s6 s5; now destruct b).
  rewrite (bind_ret _ _ _ _ _
             (stats_incr_int "completed_timers" s6 kv n Hs6 Hct)).
  eexists. split; [reflexivity |].
  subst s6 s5. destruct b; cbn; repeat split; now rewrite <- ?app_assoc.
Qed.

(** C1, as the code has it. On the tick of a running countdown whose deadline
    has passed (sound setting present, duration not zero, [completed_timers]
    an integer [n]): [remaining] is 0, the engine stops itself,
    [completed_timers] becomes [n + 1] and nothing else in the statistics
    changes ([total_sessions] and [total_time] keep their values), the finish
    sound (when sounds are enabled) and then the notification are dispatched,
    and the statistics are written to their file when the write goes through.
    Later ticks of the stopped engine repeat none of this. *)
Theorem finish_tick (s : App) (now : Q) (b : bool) (kv : dict json) (n : Z) :
  is_timer_mode (mode s) = true -> is_running s = true ->
  sound_enabled s = Some b ->
  Qeq_bool (duration s) 0 = false ->
  duration s - (now - start_time s) <= 0 ->
  stats s = JObj kv -> dict_get "completed_timers" kv = Some (JInt n) ->
  let s' := final (update_display now s) in
  let kv' := dict_set "completed_timers" (JInt (n + 1)) kv in
  remaining s' = 0 /\ is_running s' = false /\
  stats s' = JObj kv' /\
  dict_get "completed_timers" kv' = Some (JInt (n + 1)) /\
  dict_get "total_sessions" kv' = dict_get "total_sessions" kv /\
  dict_get "total_time" kv' = dict_get "total_time" kv /\
  events s' =
    (events s ++ (if b then [PlaySound "finish"] else []) ++
     [Notification "Timer Finished!"])%list /\
  (fault (disk s) = WriteOk ->
   returns (update_display now s) = true /\
   stats_file (disk s') = Doc (JObj kv')) /\
  forall later : list Q,
    let s'' := ticks later s' in
    is_running s'' = false /\ remaining s'' = 0 /\
    stats s'' = stats s' /\ events s'' = events s' /\ disk s'' = disk s'.
Proof.
  intros Hm Hr Hse Hd Hle Hst Hct.
  destruct (running_step_finish now s b kv n Hse Hd Hle Hst Hct)
    as (s7 & Hstep & Hrem & Hrun & Hmode & Hstats & Hev & Hdisk).
  assert (Hupd : update_display now s =
                 (save_stats ;;
                  s <- get ;;
                  modify_ui
                    (set_time_display_text (display_text (remaining s)))) s7).
  { rewrite (update_display_timer now s Hm), Hr. cbn [when].
    unfold bind at 1 3. now rewrite Hstep. }
  destruct (save_stats_spec s7) as (Hfr & Hst7 & Hev7 & Hft7 & Hok).
  destruct Hfr as (Fr & Fm & _ & _ & _ & _ & Frun).
  assert (Hfinal :
    let s' := final (update_display now s) in
    remaining s' = 0 /\ is_running s' = false /\ mode s' = mode s /\
    stats s' = JObj (dict_set "completed_timers" (JInt (n + 1)) kv) /\
    events s' =
      (events s ++ (if b then [PlaySound "finish"] else []) ++
       [Notification "Timer Finished!"])%list /\
    (fault (disk s) = WriteOk ->
     returns (update_display now s) = true /\
     stats_file (disk s') =
       Doc (JObj (dict_set "completed_timers" (JInt (n + 1)) kv)))).
  { cbv zeta. rewrite Hupd. unfold bind, get, modify_ui, modify.
    rewrite <- Hdisk, <- Hstats.
    destruct (save_stats s7) as [[] s8 | e s8]; cbn [final returns] in *;
      cbn [remaining is_running mode stats events disk set_ui];
      repeat split; try congruence.
    all: match goal with Hw : fault _ = WriteOk |- _ => apply Hok in Hw end;
      tauto. }
  cbv zeta in Hfinal |- *.
  destruct Hfinal as (H1 & H2 & H3 & H4 & H5 & H6).
  repeat split; try assumption; try (apply H6; assumption).
  - apply dict_get_set_same.
  - apply dict_get_set_other. discriminate.
  - apply dict_get_set_other. discriminate.
  - apply ticks_stopped; [now rewrite H3 | assumption].
  - rewrite <- H1. apply ticks_stopped; [now rewrite H3 | assumption].
  - apply ticks_stopped; [now rewrite H3 | assumption].
  - apply ticks_stopped; [now rewrite H3 | assumption].
  - apply ticks_stopped; [now rewrite H3 | assumption].
Qed.

Lemma finish_tick_witness :
  let s' := final (update_display 300 (started 300)) in
  remaining s' = 0 /\ is_running s' = false /\
  stat "completed_timers" s' = Some (JInt 1).
Proof.
  destruct (finish_tick (started 300) 300 true
              [("total_sessions", JInt 0); ("total_time", JInt 0);
               ("completed_timers", JInt 0); ("average_duration", JInt 0)]
              0%Z)
    as (H1 & H2 & H3 & _); try reflexivity.
  - apply Qle_bool_iff. reflexivity.
  - cbv zeta. unfold stat. rewrite H3. repeat split; assumption.
Defined.

(** Without the sound setting (the settings window was never opened) the
    finishing tick stops the engine and then raises in [play_sound]: no
    notification, no increment of [completed_timers]. *)
Lemma finish_without_sound_setting :
  let s := set_sound_enabled None (started 300) in
  returns (update_display 300 s) = false /\
  is_running (final (update_display 300 s)) = false /\
  events (final (update_display 300 s)) = [] /\
  stat "completed_timers" (final (update_display 300 s)) = Some (JInt 0).
Proof. vm_compute. repeat split. Qed.

(** C1 as the spec words it fails: on the finishing tick of a 300-second
    countdown the stored [total_sessions] and [total_time] stay what they
    were; no code path of the program writes them. *)
Lemma finish_leaves_totals_unchanged :
  ~ finish_updates_totals (started 300) 300 0.
Proof.
  intros (_ & _ & _ & H & _). apply H. vm_compute. reflexivity.
Qed.

(** ** Thresholds *)

(** The scenario of the spec, sampled exactly on the thresholds: duration 300,
    ticks at 180, 240 and 300 seconds after the start. *)
Example thresholds_on_exact_samples :
  let s := ticks [180; 240; 300] (started 300) in
  events s =
    [PlaySound "warning"; PlaySound "critical"; PlaySound "finish";
     Notification "Timer Finished!"] /\
  is_running s = false /\ stat "completed_timers" s = Some (JInt 1).
Proof. vm_compute. repeat split. Qed.

(** C2 at a failing input. The same countdown sampled just before and just
    after each threshold (remaining 120.1, 119.9, 60.1, 59.9, 0.1, 0): the
    sweep passes below 120 and below 60 without a sample equal to either, and
    neither the warning nor the critical sound is played; only the finish
    sound and the notification are dispatched. *)
Theorem threshold_sounds_need_exact_sample :
  let s :=
    ticks [1799 # 10; 1801 # 10; 2399 # 10; 2401 # 10; 2999 # 10; 3001 # 10]
          (started 300) in
  events s = [PlaySound "finish"; Notification "Timer Finished!"] /\
  is_running s = false /\ remaining s == 0.
Proof. vm_compute. repeat split. Qed.

(** ** Pause and resume *)

Lemma py_max0_id (x : Q) : 0 <= x -> py_max0 x == x.
Proof.
  intro H. unfold py_max0. destruct (Qle_bool x 0) eqn:E.
  - apply Qle_bool_iff in E. apply Qle_antisym; assumption.
  - reflexivity.
Qed.

(** X4. Pausing a running countdown keeps [remaining], and so does every
    tick while it stays paused. *)
Lemma pause_keeps_remaining (s : App) (now : Q) (later : list Q) :
  is_timer_mode (mode s) = true -> is_running s = true ->
  let p := final (toggle_timer now s) in
  is_running p = false /\ remaining p = remaining s /\
  remaining (ticks later p) = remaining s.
Proof.
  intros Hm Hr. cbv zeta.
  assert (Hp : exists w, toggle_timer now s =
                         Ret tt (set_ui w (set_is_running false s))).
  { unfold toggle_timer, bind, get, modify_ui, modify. rewrite Hr.
    eexists. reflexivity. }
  destruct Hp as [w Hp]. rewrite Hp. cbn [final].
  set (p := set_ui w (set_is_running false s)).
  repeat split.
  destruct (ticks_stopped later p Hm eq_refl) as (_ & H & _). exact H.
Qed.

(** Starting a paused countdown sets the anchor to the current time and
    nothing else of the engine: what was counted before the pause is not
    kept anywhere. *)
Lemma toggle_timer_start (s : App) (now : Q) :
  is_timer_mode (mode s) = true -> is_running s = false ->
  exists s', toggle_timer now s = Ret tt s' /\
    is_running s' = true /\ start_time s' = now /\
    duration s' = duration s /\ mode s' = mode s /\
    remaining s' = remaining s.
Proof.
  intros Hm Hr. destruct (timer_mode_not_clock _ Hm) as [_ Hs].
  unfold toggle_timer, bind, get, modify_ui, modify. rewrite Hr.
  cbn [mode set_ui set_is_running]. rewrite Hs, Hm.
  eexists. split; [reflexivity |]. repeat split.
Qed.

(** X3. The first tick after a start or a resume shows the whole duration
    again, whatever [remaining] was when the countdown was paused. *)
Lemma resume_shows_full_duration (s : App) (now : Q) :
  is_timer_mode (mode s) = true -> is_running s = false ->
  0 <= duration s ->
  remaining (final (update_display now (final (toggle_timer now s))))
  == duration s.
Proof.
  intros Hm Hr Hd.
  destruct (toggle_timer_start s now Hm Hr)
    as (s' & Heq & Hrun & Hst & Hdur & Hmode & _).
  rewrite Heq. cbn [final].
  assert (Hm' : is_timer_mode (mode s') = true) by (now rewrite Hmode).
  destruct (update_display_running now s' Hm' Hrun) as (Hrem & _).
  rewrite Hrem, Hdur, Hst.
  rewrite py_max0_id; lra.
Qed.

(** C3 at a failing input. A 300-second countdown is paused 100 seconds after
    the start, at [remaining = 200]; the ticks during the pause keep 200; after
    the countdown is started again at time 150, the tick shows 300 and not
    200. *)
Theorem pause_resume_restarts_countdown :
  let s1 := ticks [100] (started 300) in
  let s2 := final (toggle_timer 100 s1) in
  let s3 := ticks [110; 120] s2 in
  let s4 := final (toggle_timer 150 s3) in
  let s5 := ticks [150] s4 in
  remaining s1 == 200 /\ is_running s2 = false /\ remaining s3 == 200 /\
  is_running s4 = true /\ remaining s5 == 300 /\
  remaining (ticks [160] s5) == 290.
Proof. vm_compute. repeat split. Qed.

(** ** Saving and loading *)

Lemma save_presets_cases (s : App) :
  save_presets s =
    match fault (disk s) with
    | WriteOk =>
        Ret tt (set_disk (set_presets_file
                            (Doc (JObj (presets_document (presets s))))
                            (disk s)) s)
    | OpenFails => Raise OSError s
    | DumpFails =>
        Raise OSError (set_disk (set_presets_file Truncated (disk s)) s)
    end.
Proof.
  unfold save_presets, write_json, bind, get, modify, raise.
  destruct (fault (disk s)); reflexivity.
Qed.

Lemma save_stats_cases (s : App) :
  save_stats s =
    match fault (disk s) with
    | WriteOk => Ret tt (set_disk (set_stats_file (Doc (stats s)) (disk s)) s)
    | OpenFails => Raise OSError s
    | DumpFails =>
        Raise OSError (set_disk (set_stats_file Truncated (disk s)) s)
    end.
Proof.
  unfold save_stats, write_json, bind, get, modify, raise.
  destruct (fault (disk s)); reflexivity.
Qed.

(** C7, as the code has it. Both save methods write straight into the
    persisted file, opened for writing: a write that goes through leaves the
    new document in the file and returns; a failing [open] leaves everything
    as it was; a failure after [open] leaves the file truncated.  Either
    failure reaches the caller as an exception.  The other file and the rest
    of the state are never touched. *)
Theorem save_writes_in_place (s : App) :
  save_presets s =
    match fault (disk s) with
    | WriteOk =>
        Ret tt (set_disk (set_presets_file
                            (Doc (JObj (presets_document (presets s))))
                            (disk s)) s)
    | OpenFails => Raise OSError s
    | DumpFails =>
        Raise OSError (set_disk (set_presets_file Truncated (disk s)) s)
    end /\
  save_stats s =
    match fault (disk s) with
    | WriteOk => Ret tt (set_disk (set_stats_file (Doc (stats s)) (disk s)) s)
    | OpenFails => Raise OSError s
    | DumpFails =>
        Raise OSError (set_disk (set_stats_file Truncated (disk s)) s)
    end.
Proof. split; [apply save_presets_cases | apply save_stats_cases]. Qed.

(** C7 as the spec words it fails: a write that fails after [open] does not
    leave the previous presets file (nor the statistics file) untouched, and
    the failure is an exception raised to the caller. *)
Lemma failed_save_truncates_file :
  let s := initial failing_disk in
  save_presets s =
    Raise OSError (set_disk (set_presets_file Truncated (disk s)) s) /\
  presets_file (disk s) = Doc (JObj []) /\
  presets_file (disk (final (save_presets s))) <> presets_file (disk s) /\
  stats_file (disk (final (save_stats s))) <> stats_file (disk s).
Proof. cbn. repeat split; discriminate. Qed.

Lemma of_kwargs_vars (p : TimerPreset.t) :
  TimerPreset.of_kwargs (TimerPreset.vars p) = Some p.
Proof. destruct p. reflexivity. Qed.

(** On a dictionary, whose keys are distinct, the comprehension of
    [save_presets] maps the entries one by one, in order. *)
Lemma presets_document_from (ps : dict TimerPreset.t) : forall acc : dict json,
  NoDup (dict_keys acc ++ dict_keys ps) ->
  fold_left (fun acc e => dict_set (fst e) (JObj (TimerPreset.vars (snd e))) acc)
            ps acc =
  (acc ++ map (fun e => (fst e, JObj (TimerPreset.vars (snd e)))) ps)%list.
Proof.
  induction ps as [| [k p] ps IH]; intros acc Hnd; cbn [fold_left map].
  - now rewrite app_nil_r.
  - cbn [dict_keys map fst snd] in *.
    rewrite dict_set_fresh.
    + rewrite IH.
      * now rewrite <- app_assoc.
      * unfold dict_keys in *. rewrite map_app, <- app_assoc. exact Hnd.
    + apply NoDup_remove_2 in Hnd. intro Hin. apply Hnd.
      apply in_or_app. now left.
Qed.

Lemma presets_of_document_from (ps : dict TimerPreset.t) :
  forall acc : dict TimerPreset.t,
  NoDup (dict_keys acc ++ dict_keys ps) ->
  presets_of_document
    (map (fun e => (fst e, JObj (TimerPreset.vars (snd e)))) ps) acc =
  Some (acc ++ ps)%list.
Proof.
  induction ps as [| [k p] ps IH]; intros acc Hnd;
    cbn [map presets_of_document fst snd preset_of_json].
  - now rewrite app_nil_r.
  - cbn [dict_keys map fst snd] in *.
    rewrite of_kwargs_vars, dict_set_fresh.
    + rewrite IH.
      * now rewrite <- app_assoc.
      * unfold dict_keys in *. rewrite map_app, <- app_assoc. exact Hnd.
    + apply NoDup_remove_2 in Hnd. intro Hin. apply Hnd.
      apply in_or_app. now left.
Qed.

(** C8. For every preset dictionary (distinct names), once [save_presets] has
    written the file, [load_presets] returns the same dictionary from the
    file, every name with all six fields of its preset: it does so in the
    state the save left and also after the presets in memory have been
    replaced by any other dictionary [mem]. *)
Theorem save_load_presets_roundtrip (s : App) :
  NoDup (dict_keys (presets s)) -> fault (disk s) = WriteOk ->
  exists s', save_presets s = Ret tt s' /\
    presets s' = presets s /\
    load_presets s' = Ret (presets s) s' /\
    forall mem : dict TimerPreset.t,
      load_presets (set_presets mem s') =
      Ret (presets s) (set_presets mem s').
Proof.
  intros Hnd Hw.
  pose proof (save_presets_cases s) as Hsave. rewrite Hw in Hsave.
  eexists. split; [exact Hsave |]. split; [reflexivity |].
  assert (Hdoc : presets_of_document (presets_document (presets s)) [] =
                 Some (presets s)).
  { unfold presets_document.
    rewrite (presets_document_from (presets s) [] Hnd). cbn [app].
    now rewrite (presets_of_document_from (presets s) [] Hnd). }
  split; [| intro mem];
    unfold load_presets, bind, get;
    cbn [disk set_disk set_presets presets_file set_presets_file];
    now rewrite Hdoc.
Qed.

Lemma save_load_presets_roundtrip_witness :
  exists s',
    save_presets (set_presets two_presets (initial empty_disk)) = Ret tt s' /\
    presets s' = two_presets /\
    load_presets s' = Ret two_presets s' /\
    forall mem : dict TimerPreset.t,
      load_presets (set_presets mem s') = Ret two_presets (set_presets mem s').
Proof.
  apply (save_load_presets_roundtrip
           (set_presets two_presets (initial empty_disk))).
  - cbn. repeat constructor; cbn; intuition discriminate.
  - reflexivity.
Defined.

(** ** The remote-control thread *)



(** * Further properties of the code *)

(** ** Stopwatch *)

Lemma stopwatch_tick (now : Q) (s : App) :
  mode s = "stopwatch" ->
  let s1 := if is_running s then set_elapsed (now - start_time s) s else s in
  update_display now s =
  Ret tt (set_ui (set_time_display_text (stopwatch_text (elapsed s1)) (ui s1))
                 s1).
Proof.
  intro Hm. unfold update_display. unfold bind at 1. unfold get at 1.
  rewrite Hm. cbn [String.eqb Ascii.eqb Bool.eqb].
  unfold bind, get, modify_ui, modify, when, ret.
  destruct (is_running s); reflexivity.
Qed.

Lemma stopwatch_toggle_start (now : Q) (s : App) :
  mode s = "stopwatch" -> is_running s = false ->
  exists s', toggle_timer now s = Ret tt s' /\
    mode s' = "stopwatch" /\ is_running s' = true /\
    start_time s' = now - elapsed s /\ elapsed s' = elapsed s.
Proof.
  intros Hm Hr. unfold toggle_timer, bind, get, modify_ui, modify.
  rewrite Hr. cbn [mode set_ui set_is_running]. rewrite Hm.
  cbn [String.eqb Ascii.eqb Bool.eqb].
  eexists. split; [reflexivity |]. cbn. repeat split. exact Hm.
Qed.

(** X1. A running stopwatch shows the time since its anchor: after a tick
    [elapsed] is [now - start_time], the tick changes nothing else of the
    engine, and a later tick never shows less. *)
Theorem stopwatch_elapsed_grows (s : App) (t1 t2 : Q) :
  mode s = "stopwatch" -> is_running s = true -> t1 <= t2 ->
  let s1 := final (update_display t1 s) in
  let s2 := final (update_display t2 s1) in
  elapsed s1 = t1 - start_time s /\ elapsed s2 = t2 - start_time s /\
  elapsed s1 <= elapsed s2 /\
  is_running s2 = true /\ remaining s2 = remaining s /\
  duration s2 = duration s /\ events s2 = events s /\ stats s2 = stats s.
Proof.
  intros Hm Hr Hle. cbv zeta.
  rewrite (stopwatch_tick t1 s Hm), Hr. cbn [final].
  set (s1 := set_ui _ _).
  assert (Hm1 : mode s1 = "stopwatch") by exact Hm.
  rewrite (stopwatch_tick t2 s1 Hm1).
  change (is_running s1) with (is_running s). rewrite Hr. cbn [final].
  cbn. repeat split; try assumption. lra.
Qed.

Lemma stopwatch_elapsed_grows_witness :
  let s1 := final (update_display 15 stopwatch_started) in
  let s2 := final (update_display 40 s1) in
  elapsed s1 = 15 - start_time stopwatch_started /\
  elapsed s1 <= elapsed s2.
Proof.
  destruct (stopwatch_elapsed_grows stopwatch_started 15 40)
    as (H1 & _ & H3 & _); try reflexivity.
  - apply Qle_bool_iff. reflexivity.
  - split; assumption.
Defined.

(** X2. A paused stopwatch resumes where it stopped: started again at time
    [now], a tick at time [t] shows the paused [elapsed] plus the time since
    [now]. *)
Theorem stopwatch_resume_continues (s : App) (now t : Q) :
  mode s = "stopwatch" -> is_running s = false ->
  let s' := final (update_display t (final (toggle_timer now s))) in
  elapsed s' == elapsed s + (t - now) /\ is_running s' = true.
Proof.
  intros Hm Hr. cbv zeta.
  destruct (stopwatch_toggle_start now s Hm Hr)
    as (s1 & Heq & Hm1 & Hr1 & Hst & Hel).
  rewrite Heq. cbn [final].
  rewrite (stopwatch_tick t s1 Hm1), Hr1. cbn [final].
  cbn [elapsed set_ui set_elapsed is_running]. rewrite Hst.
  split; [ring | assumption].
Qed.

Lemma stopwatch_resume_continues_witness :
  let paused := final (toggle_timer 40
                         (final (update_display 40 stopwatch_started))) in
  let s' := final (update_display 100 (final (toggle_timer 90 paused))) in
  elapsed s' == elapsed paused + (100 - 90) /\ is_running s' = true.
Proof.
  apply (stopwatch_resume_continues
           (final (toggle_timer 40
                     (final (update_display 40 stopwatch_started)))) 90 100);
    reflexivity.
Defined.

(** ** Countdown: start, pause, quiet ticks and thresholds *)

Lemma resume_shows_full_duration_witness :
  remaining (final (update_display 50
                      (final (toggle_timer 50
                                (set_mode "timer" (initial empty_disk))))))
  == duration (set_mode "timer" (initial empty_disk)).
Proof.
  apply (resume_shows_full_duration (set_mode "timer" (initial empty_disk)) 50);
    try reflexivity.
  apply Qle_bool_iff. reflexivity.
Defined.

Lemma pause_keeps_remaining_witness :
  let s := final (update_display 100 (started 300)) in
  let p := final (toggle_timer 100 s) in
  is_running p = false /\ remaining p = remaining s /\
  remaining (ticks [110; 120; 500] p) = remaining s.
Proof.
  apply (pause_keeps_remaining (final (update_display 100 (started 300))) 100
           [110; 120; 500]); reflexivity.
Defined.

Lemma running_step_zero_duration (now : Q) (s : App) :
  Qeq_bool (duration s) 0 = true ->
  running_step now s = Raise ZeroDivisionError (after_recompute now s).
Proof.
  intro Hd. unfold running_step.
  unfold bind at 1. unfold get at 1.
  unfold bind at 1. unfold modify at 1.
  fold (after_recompute now s).
  unfold bind at 1. unfold get at 1. unfold bind at 1.
  change (duration (after_recompute now s)) with (duration s).
  now rewrite Hd.
Qed.

Lemma running_step_prefix (now : Q) (s : App) :
  Qeq_bool (duration s) 0 = false ->
  running_step now s = (update_colors ;; check_finished) (after_progress now s).
Proof.
  intro Hd. unfold running_step.
  unfold bind at 1. unfold get at 1.
  unfold bind at 1. unfold modify at 1.
  fold (after_recompute now s).
  unfold bind at 1. unfold get at 1. unfold bind at 1.
  change (duration (after_recompute now s)) with (duration s).
  rewrite Hd. reflexivity.
Qed.

Lemma only_ui_refl (s : App) : only_ui s s.
Proof. exists (ui s). now destruct s. Qed.

Lemma only_ui_trans (s1 s2 s3 : App) :
  only_ui s1 s2 -> only_ui s2 s3 -> only_ui s1 s3.
Proof. intros [w1 ->] [w2 ->]. now exists w2. Qed.

Lemma only_ui_set_ui (w : Widgets) (s : App) : only_ui s (set_ui w s).
Proof. now exists w. Qed.

(** Off the two thresholds the colour branch plays nothing. *)
Lemma update_colors_quiet (s : App) :
  Qeq_bool (remaining s) 60 = false -> Qeq_bool (remaining s) 120 = false ->
  only_ui s (final (update_colors s)).
Proof.
  intros H60 H120. unfold update_colors. unfold bind at 1. unfold get at 1.
  rewrite H60, H120. cbn [when].
  unfold bind, modify_ui, modify, ret, raise.
  destruct (Qle_bool (remaining s) 60); [apply only_ui_set_ui |].
  destruct (Qle_bool (remaining s) 120); [apply only_ui_set_ui |].
  destruct (theme_fg (current_theme s)); cbn [final];
    [apply only_ui_set_ui | apply only_ui_refl].
Qed.

Lemma check_finished_quiet (s : App) :
  Qeq_bool (remaining s) 0 = false -> check_finished s = Ret tt s.
Proof.
  intro H. unfold check_finished, bind, get. now rewrite H.
Qed.

(** X5. A tick of a running countdown whose new [remaining] is none of 0, 60
    and 120 changes [remaining] and widgets, and nothing else: no sound, no
    notification, no statistics, no file, and the countdown keeps running. *)
Theorem quiet_tick (s : App) (now : Q) :
  is_timer_mode (mode s) = true -> is_running s = true ->
  Qeq_bool (duration s) 0 = false ->
  let r := py_max0 (duration s - (now - start_time s)) in
  Qeq_bool r 0 = false -> Qeq_bool r 60 = false -> Qeq_bool r 120 = false ->
  only_ui (set_remaining r s) (final (update_display now s)).
Proof.
  intros Hm Hr Hd r H0 H60 H120.
  rewrite (update_display_timer now s Hm), Hr. cbn [when].
  unfold bind at 1. rewrite (running_step_prefix now s Hd).
  unfold bind at 1.
  assert (Hp : only_ui (set_remaining r s) (after_progress now s))
    by apply only_ui_set_ui.
  pose proof (update_colors_quiet (after_progress now s) H60 H120) as Hc.
  destruct (update_colors (after_progress now s)) as [[] s3 | e s3];
    cbn [final] in Hc |- *.
  - assert (H3 : Qeq_bool (remaining s3) 0 = false)
      by (destruct Hc as [w ->]; exact H0).
    rewrite (check_finished_quiet s3 H3).
    unfold bind, get, modify_ui, modify. cbn [final].
    eapply only_ui_trans; [exact Hp |].
    eapply only_ui_trans; [exact Hc | apply only_ui_set_ui].
  - exact (only_ui_trans _ _ _ Hp Hc).
Qed.

Lemma quiet_tick_witness :
  only_ui (set_remaining (py_max0 (300 - (100 - 0))) (started 300))
          (final (update_display 100 (started 300))).
Proof.
  apply (quiet_tick (started 300) 100); reflexivity.
Defined.

(** X7. A running countdown whose duration is zero never finishes: every
    tick raises [ZeroDivisionError] at the progress bar, before the finish
    check, and leaves the engine running with nothing dispatched or counted. *)
Theorem zero_duration_never_finishes (s : App) (now : Q) :
  is_timer_mode (mode s) = true -> is_running s = true ->
  Qeq_bool (duration s) 0 = true ->
  update_display now s = Raise ZeroDivisionError (after_recompute now s) /\
  is_running (final (update_display now s)) = true /\
  events (final (update_display now s)) = events s /\
  stats (final (update_display now s)) = stats s.
Proof.
  intros Hm Hr Hd.
  assert (Heq : update_display now s =
                Raise ZeroDivisionError (after_recompute now s)).
  { rewrite (update_display_timer now s Hm), Hr. cbn [when].
    unfold bind at 1. now rewrite (running_step_zero_duration now s Hd). }
  rewrite Heq. cbn [final]. repeat split. exact Hr.
Qed.

Lemma zero_duration_never_finishes_witness :
  update_display 5 (started 0) =
    Raise ZeroDivisionError (after_recompute 5 (started 0)) /\
  is_running (final (update_display 5 (started 0))) = true /\
  events (final (update_display 5 (started 0))) = events (started 0) /\
  stats (final (update_display 5 (started 0))) = stats (started 0).
Proof.
  apply (zero_duration_never_finishes (started 0) 5); reflexivity.
Defined.

Lemma threshold_facts (r thr : Q) (kind : string) :
  (thr = 120 /\ kind = "warning") \/ (thr = 60 /\ kind = "critical") ->
  Qeq_bool r thr = true ->
  Qeq_bool r 0 = false /\
  (if Qle_bool r 60
   then Qeq_bool r 60 = true /\ kind = "critical"
   else Qle_bool r 120 = true /\ Qeq_bool r 120 = true /\ kind = "warning").
Proof.
  intros [[-> ->] | [-> ->]] H; apply Qeq_bool_iff in H.
  - assert (H0 : Qeq_bool r 0 = false) by (rewrite H; reflexivity).
    assert (H1 : Qle_bool r 60 = false) by (rewrite H; reflexivity).
    assert (H2 : Qle_bool r 120 = true) by (rewrite H; reflexivity).
    assert (H3 : Qeq_bool r 120 = true) by (rewrite H; reflexivity).
    rewrite H1. auto.
  - assert (H0 : Qeq_bool r 0 = false) by (rewrite H; reflexivity).
    assert (H1 : Qle_bool r 60 = true) by (rewrite H; reflexivity).
    assert (H3 : Qeq_bool r 60 = true) by (rewrite H; reflexivity).
    rewrite H1. auto.
Qed.

(** X6. A tick of a running countdown whose new [remaining] is exactly 120
    (resp. 60) returns normally, plays the warning (resp. critical) sound
    when sounds are enabled, and changes nothing but [remaining], the widgets
    and that one event; the countdown keeps running. *)
Theorem threshold_tick (s : App) (now thr : Q) (kind : string) (b : bool) :
  is_timer_mode (mode s) = true -> is_running s = true ->
  sound_enabled s = Some b ->
  Qeq_bool (duration s) 0 = false ->
  (thr = 120 /\ kind = "warning") \/ (thr = 60 /\ kind = "critical") ->
  let r := py_max0 (duration s - (now - start_time s)) in
  Qeq_bool r thr = true ->
  exists w,
    update_display now s =
    Ret tt (set_ui w (if b then add_event (PlaySound kind) (set_remaining r s)
                      else set_remaining r s)).
Proof.
  intros Hm Hr Hse Hd Hk r Hthr.
  destruct (threshold_facts r thr kind Hk Hthr) as [H0 Hcase].
  rewrite (update_display_timer now s Hm), Hr. cbn [when].
  unfold bind at 1. rewrite (running_step_prefix now s Hd).
  unfold bind at 1. unfold update_colors.
  unfold bind at 1. unfold get at 1.
  change (remaining (after_progress now s)) with r.
  destruct (Qle_bool r 60).
  - destruct Hcase as [H60 ->]. rewrite H60. cbn [when].
    unfold bind at 1. unfold modify_ui at 1. unfold modify at 1.
    set (s3 := set_ui _ (after_progress now s)).
    assert (Hse3 : sound_enabled s3 = Some b) by exact Hse.
    rewrite (play_sound_enabled "critical" s3 b Hse3).
    set (s4 := if b then _ else _).
    assert (H4 : Qeq_bool (remaining s4) 0 = false)
      by (subst s4; destruct b; exact H0).
    rewrite (check_finished_quiet s4 H4).
    unfold bind, get, modify_ui, modify.
    eexists. subst s4 s3. destruct b; reflexivity.
  - destruct Hcase as (H120 & He120 & ->). rewrite H120, He120. cbn [when].
    unfold bind at 1. unfold modify_ui at 1. unfold modify at 1.
    set (s3 := set_ui _ (after_progress now s)).
    assert (Hse3 : sound_enabled s3 = Some b) by exact Hse.
    rewrite (play_sound_enabled "warning" s3 b Hse3).
    set (s4 := if b then _ else _).
    assert (H4 : Qeq_bool (remaining s4) 0 = false)
      by (subst s4; destruct b; exact H0).
    rewrite (check_finished_quiet s4 H4).
    unfold bind, get, modify_ui, modify.
    eexists. subst s4 s3. destruct b; reflexivity.
Qed.

Lemma threshold_tick_witness :
  exists w,
    update_display 180 (started 300) =
    Ret tt (set_ui w (add_event (PlaySound "warning")
                        (set_remaining (py_max0 (300 - (180 - 0)))
                                       (started 300)))).
Proof.
  apply (threshold_tick (started 300) 180 120 "warning" true);
    try reflexivity.
  left. split; reflexivity.
Defined.

(** X8. When the sound setting does not exist (the settings window was never
    opened), the tick on which a running countdown reaches zero stops the
    engine and then raises [AttributeError] in [play_sound]: no notification
    is shown, the statistics are not changed and nothing is written. *)
Theorem finish_needs_sound_setting (s : App) (now : Q) :
  is_timer_mode (mode s) = true -> is_running s = true ->
  sound_enabled s = None ->
  Qeq_bool (duration s) 0 = false ->
  duration s - (now - start_time s) <= 0 ->
  exists w,
    update_display now s =
    Raise AttributeError
          (set_ui w (set_is_running false (set_remaining 0 s))).
Proof.
  intros Hm Hr Hse Hd Hle.
  rewrite (update_display_timer now s Hm), Hr. cbn [when].
  unfold bind at 1. rewrite (running_step_prefix now s Hd).
  unfold after_progress, after_recompute. rewrite (py_max0_zero _ Hle).
  cbv zeta.
  unfold bind at 1. unfold update_colors.
  unfold bind at 1. unfold get at 1.
  cbn [remaining set_ui set_remaining].
  change (Qle_bool 0 60) with true. change (Qeq_bool 0 60) with false.
  cbv iota. cbn [when].
  unfold bind at 1. unfold modify_ui at 1. unfold modify at 1.
  unfold ret at 1.
  unfold check_finished. unfold bind at 1. unfold get at 1.
  cbn [remaining set_ui set_remaining].
  change (Qeq_bool 0 0) with true. cbn [when].
  unfold bind at 1. unfold modify at 1.
  unfold bind at 1. unfold play_sound. unfold bind at 1. unfold get at 1.
  cbn [sound_enabled set_is_running set_ui set_remaining]. rewrite Hse.
  unfold raise. eexists. reflexivity.
Qed.

Lemma finish_needs_sound_setting_witness :
  exists w,
    update_display 300 (set_sound_enabled None (started 300)) =
    Raise AttributeError
          (set_ui w (set_is_running false
                       (set_remaining 0
                          (set_sound_enabled None (started 300))))).
Proof.
  apply (finish_needs_sound_setting (set_sound_enabled None (started 300)) 300);
    try reflexivity.
  apply Qle_bool_iff. reflexivity.
Defined.

(** X11. With a theme name that is not in the theme table, every tick of a
    running countdown with more than 120 seconds left raises [KeyError] in the
    colour branch: [remaining] and the progress bar are updated, the text of
    the display is not, and the countdown keeps running. *)
Theorem unknown_theme_blocks_display (s : App) (now : Q) :
  is_timer_mode (mode s) = true -> is_running s = true ->
  Qeq_bool (duration s) 0 = false ->
  theme_fg (current_theme s) = None ->
  Qle_bool (py_max0 (duration s - (now - start_time s))) 120 = false ->
  update_display now s = Raise KeyError (after_progress now s) /\
  time_display_text (ui (after_progress now s)) = time_display_text (ui s) /\
  is_running (after_progress now s) = true.
Proof.
  intros Hm Hr Hd Hth H120.
  assert (H60 : Qle_bool (py_max0 (duration s - (now - start_time s))) 60
                = false).
  { destruct (Qle_bool _ 60) eqn:E; [| reflexivity].
    apply Qle_bool_iff in E.
    assert (H : py_max0 (duration s - (now - start_time s)) <= 120) by lra.
    apply Qle_bool_iff in H. congruence. }
  split; [| split; [reflexivity | exact Hr]].
  rewrite (update_display_timer now s Hm), Hr. cbn [when].
  unfold bind at 1. rewrite (running_step_prefix now s Hd).
  unfold bind at 1. unfold update_colors.
  unfold bind at 1. unfold get at 1.
  change (remaining (after_progress now s))
    with (py_max0 (duration s - (now - start_time s))).
  rewrite H60, H120.
  change (current_theme (after_progress now s)) with (current_theme s).
  rewrite Hth. reflexivity.
Qed.

Lemma unknown_theme_blocks_display_witness :
  let s := with_theme "midnight" (started 300) in
  update_display 100 s = Raise KeyError (after_progress 100 s) /\
  time_display_text (ui (after_progress 100 s)) = time_display_text (ui s) /\
  is_running (after_progress 100 s) = true.
Proof.
  apply (unknown_theme_blocks_display (with_theme "midnight" (started 300)) 100);
    reflexivity.
Defined.

(** X9. Changing the duration of a running countdown does not restart it:
    the anchor stays, and [remaining] becomes the new duration minus the time
    already run (never below 0). *)
Theorem set_duration_while_running (s : App) (now seconds : Q) :
  is_timer_mode (mode s) = true -> is_running s = true ->
  let s' := final (set_duration now seconds s) in
  remaining s' = py_max0 (seconds - (now - start_time s)) /\
  start_time s' = start_time s /\ duration s' = seconds.
Proof.
  intros Hm Hr. cbv zeta.
  set (s1 := set_remaining seconds (set_duration_field seconds s)).
  assert (Heq : final (set_duration now seconds s) =
                match update_display now s1 with
                | Ret _ s2 =>
                    set_ui (set_status_bar_text
                              ("Duration set to " ++
                               NilZero.string_of_int
                                 (Z.to_int (py_floordiv seconds 60)) ++
                               " minutes") (ui s2)) s2
                | Raise _ s2 => s2
                end).
  { unfold set_duration.
    do 2 (unfold bind at 1; unfold modify at 1).
    unfold bind at 1. fold s1.
    destruct (update_display now s1) as [[] s2 | e s2]; reflexivity. }
  rewrite Heq.
  destruct (update_display_running now s1 Hm Hr)
    as (Hrem & _ & Hdur & Hst & _).
  destruct (update_display now s1) as [[] s2 | e s2]; cbn [final] in *;
    repeat split; assumption.
Qed.

Lemma set_duration_while_running_witness :
  let s' := final (set_duration 100 600 (started 300)) in
  remaining s' = py_max0 (600 - (100 - start_time (started 300))) /\
  start_time s' = start_time (started 300) /\ duration s' = 600.
Proof.
  apply (set_duration_while_running (started 300) 100 600); reflexivity.
Defined.

(** ** The progress bar *)

Lemma progress_leaf (f : App -> App) :
  (forall s, ui (f s) = ui s) -> keeps same_progress (modify f).
Proof. intros H s. unfold same_progress, modify. cbn [final]. now rewrite H. Qed.

Lemma same_progress_refl (s : App) : same_progress s s.
Proof. reflexivity. Qed.

Lemma same_progress_trans (s1 s2 s3 : App) :
  same_progress s1 s2 -> same_progress s2 s3 -> same_progress s1 s3.
Proof. unfold same_progress. congruence. Qed.

Lemma progress_bind {A B} (c : M A) (k : A -> M B) :
  keeps same_progress c -> (forall a, keeps same_progress (k a)) ->
  keeps same_progress (bind c k).
Proof. apply keeps_bind, same_progress_trans. Qed.

Lemma progress_play_sound (k : string) : keeps same_progress (play_sound k).
Proof.
  apply keeps_get_bind. intro s.
  destruct (sound_enabled s) as [[|] |]; reflexivity.
Qed.

Lemma progress_update_colors : keeps same_progress update_colors.
Proof.
  apply keeps_get_bind. intro s.
  destruct (Qle_bool (remaining s) 60); [| destruct (Qle_bool (remaining s) 120)].
  - apply progress_bind; [intro s1; reflexivity |].
    intros _. apply keeps_when; [apply same_progress_refl |].
    apply progress_play_sound.
  - apply progress_bind; [intro s1; reflexivity |].
    intros _. apply keeps_when; [apply same_progress_refl |].
    apply progress_play_sound.
  - destruct (theme_fg (current_theme s)); reflexivity.
Qed.

Lemma progress_check_finished : keeps same_progress check_finished.
Proof.
  apply keeps_get_bind. intro s.
  apply keeps_when; [apply same_progress_refl |].
  apply progress_bind; [now apply progress_leaf | intros _].
  apply progress_bind; [apply progress_play_sound | intros _].
  apply progress_bind; [now apply progress_leaf | intros _].
  apply progress_bind.
  - apply keeps_get_bind. intro s1.
    destruct (stats s1) as [| | | | | | kv]; try reflexivity.
    destruct (dict_get "completed_timers" kv) as [[] |]; reflexivity.
  - intros _. apply keeps_get_bind. intro s1.
    unfold write_json, bind, get, modify, raise.
    destruct (fault (disk s1)); reflexivity.
Qed.

(** X10. On a tick of a running countdown with a positive duration, at or
    after the anchor, the progress bar is set to the share of the duration
    that has run, a value between 0 and 100, whatever else the tick does. *)
Theorem progress_within_bounds (s : App) (now : Q) :
  is_timer_mode (mode s) = true -> is_running s = true ->
  0 < duration s -> start_time s <= now ->
  let s' := final (update_display now s) in
  let r := py_max0 (duration s - (now - start_time s)) in
  progress_value (ui s') = (duration s - r) / duration s * 100 /\
  0 <= progress_value (ui s') /\ progress_value (ui s') <= 100.
Proof.
  intros Hm Hr Hd Hnow. cbv zeta.
  assert (Hd0 : Qeq_bool (duration s) 0 = false).
  { destruct (Qeq_bool (duration s) 0) eqn:E; [| reflexivity].
    apply Qeq_bool_iff in E. lra. }
  assert (Hp : same_progress (after_progress now s)
                             (final (update_display now s))).
  { rewrite (update_display_timer now s Hm), Hr. cbn [when].
    unfold bind at 1. rewrite (running_step_prefix now s Hd0).
    assert (Hk : keeps same_progress
                   ((update_colors ;; check_finished) ;;
                    s0 <- get ;;
                    modify_ui
                      (set_time_display_text (display_text (remaining s0))))).
    { apply progress_bind.
      - apply progress_bind; [apply progress_update_colors |].
        intros _. apply progress_check_finished.
      - intros _. apply keeps_get_bind. intro s1. reflexivity. }
    exact (Hk (after_progress now s)). }
  unfold same_progress in Hp. rewrite Hp.
  cbn [after_progress after_recompute progress_value ui set_ui
       set_progress_value duration remaining set_remaining].
  split; [reflexivity |].
  set (r := py_max0 (duration s - (now - start_time s))).
  assert (Hr0 : 0 <= r) by apply py_max0_nonneg.
  assert (Hrd : r <= duration s).
  { unfold r, py_max0.
    destruct (Qle_bool (duration s - (now - start_time s)) 0); lra. }
  assert (H0 : 0 <= (duration s - r) / duration s)
    by (apply Qle_shift_div_l; [assumption | lra]).
  assert (H1 : (duration s - r) / duration s <= 1)
    by (apply Qle_shift_div_r; [assumption | lra]).
  split; lra.
Qed.

Lemma progress_within_bounds_witness :
  let s' := final (update_display 75 (started 300)) in
  0 <= progress_value (ui s') /\ progress_value (ui s') <= 100.
Proof.
  destruct (progress_within_bounds (started 300) 75) as (_ & H1 & H2);
    try reflexivity.
  - apply Qle_bool_iff. reflexivity.
  - split; assumption.
Defined.

(** ** The text of the display *)

Lemma floordiv_bounds (x c : Q) :
  0 < c ->
  c * inject_Z (py_floordiv x c) <= x /\
  x < c * inject_Z (py_floordiv x c) + c.
Proof.
  intro Hc. unfold py_floordiv.
  pose proof (Qfloor_le (x / c)) as Hlo.
  pose proof (Qlt_floor (x / c)) as Hhi.
  rewrite inject_Z_plus in Hhi.
  assert (Hx : c * (x / c) == x) by (apply Qmult_div_r; lra).
  set (k := inject_Z (Qfloor (x / c))) in *.
  split.
  - rewrite <- Hx. apply Qmult_le_l; assumption.
  - assert (H : c * (x / c) < c * (k + inject_Z 1))
      by (apply Qmult_lt_l; assumption).
    rewrite Hx in H. change (inject_Z 1) with 1 in H. lra.
Qed.

Lemma py_mod_bounds (x c : Q) :
  0 < c -> 0 <= py_mod x c /\ py_mod x c < c.
Proof.
  intro Hc. destruct (floordiv_bounds x c Hc) as [Hlo Hhi].
  unfold py_mod. split; lra.
Qed.

Lemma floor_unique (x : Q) (a : Z) :
  inject_Z a <= x -> x < inject_Z a + 1 -> Qfloor x = a.
Proof.
  intros Hlo Hhi.
  pose proof (Qfloor_le x) as Flo. pose proof (Qlt_floor x) as Fhi.
  assert (H1 : (a < Qfloor x + 1)%Z).
  { rewrite Zlt_Qlt. eapply Qle_lt_trans; eassumption. }
  assert (H2 : (Qfloor x < a + 1)%Z).
  { rewrite Zlt_Qlt, inject_Z_plus. change (inject_Z 1) with 1.
    eapply Qle_lt_trans; eassumption. }
  lia.
Qed.

(** X12. For a [remaining] from 0 up to 100 hours, the three numbers of the
    display split its whole seconds: hours are between 0 and 99, minutes and
    seconds between 0 and 59, and [hours * 3600 + minutes * 60 + seconds] is
    [remaining] rounded down. *)
Theorem display_numbers_split_floor (rem : Q) :
  0 <= rem -> rem < 360000 ->
  (0 <= display_hours rem <= 99)%Z /\
  (0 <= display_minutes rem <= 59)%Z /\
  (0 <= display_seconds rem <= 59)%Z /\
  (display_hours rem * 3600 + display_minutes rem * 60 + display_seconds rem
   = Qfloor rem)%Z.
Proof.
  intros Hpos Hmax.
  unfold display_hours, display_minutes, display_seconds.
  assert (C3600 : 0 < 3600) by reflexivity.
  assert (C60 : 0 < 60) by reflexivity.
  destruct (floordiv_bounds rem 3600 C3600) as [Hh1 Hh2].
  destruct (py_mod_bounds rem 3600 C3600) as [Hq1 Hq2].
  destruct (floordiv_bounds (py_mod rem 3600) 60 C60) as [Hm1 Hm2].
  destruct (floordiv_bounds rem 60 C60) as [Hk1 Hk2].
  destruct (py_mod_bounds rem 60 C60) as [Hs1 Hs2].
  pose proof (Qfloor_le (py_mod rem 60)) as Hf1.
  pose proof (Qlt_floor (py_mod rem 60)) as Hf2.
  rewrite inject_Z_plus in Hf2. change (inject_Z 1) with 1 in Hf2.
  set (h := py_floordiv rem 3600) in *.
  set (m := py_floordiv (py_mod rem 3600) 60) in *.
  set (k := py_floordiv rem 60) in *.
  set (sec := Qfloor (py_mod rem 60)) in *.
  assert (Hmod3600 : py_mod rem 3600 = rem - 3600 * inject_Z h) by reflexivity.
  assert (Hmod60 : py_mod rem 60 = rem - 60 * inject_Z k) by reflexivity.
  rewrite Hmod3600 in *. rewrite Hmod60 in *.
  (* hours *)
  assert (Hh_lo : (-1 < h)%Z).
  { rewrite Zlt_Qlt. change (inject_Z (-1)) with (-1). lra. }
  assert (Hh_hi : (h < 100)%Z).
  { rewrite Zlt_Qlt. change (inject_Z 100) with 100. lra. }
  (* minutes *)
  assert (Hm_lo : (-1 < m)%Z).
  { rewrite Zlt_Qlt. change (inject_Z (-1)) with (-1). lra. }
  assert (Hm_hi : (m < 60)%Z).
  { rewrite Zlt_Qlt. change (inject_Z 60) with 60. lra. }
  (* seconds *)
  assert (Hs_lo : (-1 < sec)%Z).
  { rewrite Zlt_Qlt. change (inject_Z (-1)) with (-1). lra. }
  assert (Hs_hi : (sec < 60)%Z).
  { rewrite Zlt_Qlt. change (inject_Z 60) with 60. lra. }
  (* the whole minutes of [rem] are [60 * h + m] *)
  assert (Hk : (k = 60 * h + m)%Z).
  { assert (Hlt1 : (k < 60 * h + m + 1)%Z).
    { rewrite Zlt_Qlt, !inject_Z_plus, inject_Z_mult.
      change (inject_Z 60) with 60. change (inject_Z 1) with 1. lra. }
    assert (Hlt2 : (60 * h + m < k + 1)%Z).
    { rewrite Zlt_Qlt, !inject_Z_plus, inject_Z_mult.
      change (inject_Z 60) with 60. change (inject_Z 1) with 1. lra. }
    lia. }
  repeat split; try lia.
  symmetry. replace (h * 3600 + m * 60 + sec)%Z with (60 * k + sec)%Z by lia.
  apply floor_unique.
  - rewrite inject_Z_plus, inject_Z_mult. change (inject_Z 60) with 60. lra.
  - rewrite inject_Z_plus, inject_Z_mult. change (inject_Z 60) with 60. lra.
Qed.

Lemma display_numbers_split_floor_witness :
  (0 <= display_hours (7384 # 1) <= 99)%Z /\
  (0 <= display_minutes (7384 # 1) <= 59)%Z /\
  (0 <= display_seconds (7384 # 1) <= 59)%Z /\
  (display_hours (7384 # 1) * 3600 + display_minutes (7384 # 1) * 60 +
   display_seconds (7384 # 1) = Qfloor (7384 # 1))%Z.
Proof.
  apply (display_numbers_split_floor (7384 # 1)).
  - apply Qle_bool_iff. reflexivity.
  - reflexivity.
Defined.

Lemma display_fields_bounds (rem : Q) :
  (0 <= display_minutes rem <= 59)%Z /\ (0 <= display_seconds rem <= 59)%Z.
Proof.
  unfold display_minutes, display_seconds.
  assert (C3600 : 0 < 3600) by reflexivity.
  assert (C60 : 0 < 60) by reflexivity.
  destruct (py_mod_bounds rem 3600 C3600) as [Hq1 Hq2].
  destruct (floordiv_bounds (py_mod rem 3600) 60 C60) as [Hm1 Hm2].
  destruct (py_mod_bounds rem 60 C60) as [Hs1 Hs2].
  pose proof (Qfloor_le (py_mod rem 60)) as Hf1.
  pose proof (Qlt_floor (py_mod rem 60)) as Hf2.
  rewrite inject_Z_plus in Hf2. change (inject_Z 1) with 1 in Hf2.
  set (m := py_floordiv (py_mod rem 3600) 60) in *.
  set (sec := Qfloor (py_mod rem 60)) in *.
  assert (Hm_lo : (-1 < m)%Z).
  { rewrite Zlt_Qlt. change (inject_Z (-1)) with (-1). lra. }
  assert (Hm_hi : (m < 60)%Z).
  { rewrite Zlt_Qlt. change (inject_Z 60) with 60. lra. }
  assert (Hs_lo : (-1 < sec)%Z).
  { rewrite Zlt_Qlt. change (inject_Z (-1)) with (-1). lra. }
  assert (Hs_hi : (sec < 60)%Z).
  { rewrite Zlt_Qlt. change (inject_Z 60) with 60. lra. }
  lia.
Qed.

Lemma string_length_append (a b : string) :
  String.length (a ++ b) = (String.length a + String.length b)%nat.
Proof. induction a as [| c a IH]; cbn; [reflexivity | now rewrite IH]. Qed.

Lemma fmt_02d_two_chars (n : Z) :
  (0 <= n <= 99)%Z -> String.length (fmt_02d n) = 2%nat.
Proof.
  intro Hn.
  assert (Hall : forallb (fun i => Nat.eqb (String.length (fmt_02d (Z.of_nat i))) 2)
                         (seq 0 100) = true) by (vm_compute; reflexivity).
  rewrite forallb_forall in Hall.
  specialize (Hall (Z.to_nat n)).
  rewrite Z2Nat.id in Hall by lia.
  apply Nat.eqb_eq, Hall, in_seq. lia.
Qed.

Lemma display_hours_nonneg (rem : Q) : 0 <= rem -> (0 <= display_hours rem)%Z.
Proof.
  intro H. unfold display_hours.
  assert (C : 0 < 3600) by reflexivity.
  destruct (floordiv_bounds rem 3600 C) as [_ Hhi].
  assert (Hlt : (-1 < py_floordiv rem 3600)%Z).
  { rewrite Zlt_Qlt. change (inject_Z (-1)) with (-1). lra. }
  lia.
Qed.

Lemma display_hours_small (rem : Q) :
  0 <= rem -> rem < 3600 -> display_hours rem = 0%Z.
Proof.
  intros H0 H1. unfold display_hours.
  assert (C : 0 < 3600) by reflexivity.
  destruct (floordiv_bounds rem 3600 C) as [Hlo Hhi].
  assert (Hlt : (-1 < py_floordiv rem 3600)%Z).
  { rewrite Zlt_Qlt. change (inject_Z (-1)) with (-1). lra. }
  assert (Hlt2 : (py_floordiv rem 3600 < 1)%Z).
  { rewrite Zlt_Qlt. change (inject_Z 1) with 1. lra. }
  lia.
Qed.

Lemma display_hours_large (rem : Q) :
  3600 <= rem -> rem < 360000 -> (1 <= display_hours rem <= 99)%Z.
Proof.
  intros H0 H1. unfold display_hours.
  assert (C : 0 < 3600) by reflexivity.
  destruct (floordiv_bounds rem 3600 C) as [Hlo Hhi].
  assert (Hlt : (0 < py_floordiv rem 3600)%Z).
  { rewrite Zlt_Qlt. change (inject_Z 0) with 0. lra. }
  assert (Hlt2 : (py_floordiv rem 3600 < 100)%Z).
  { rewrite Zlt_Qlt. change (inject_Z 100) with 100. lra. }
  lia.
Qed.

(** X13. The text of the countdown display: below one hour it is the two
    fields [MM:SS] (5 characters), from one hour up to 100 hours the three
    fields [HH:MM:SS] (8 characters), each field two digits wide. *)
Theorem display_text_shape (rem : Q) :
  0 <= rem -> rem < 360000 ->
  display_text rem =
    (if Qle_bool 3600 rem
     then fmt_02d (display_hours rem) ++ ":" ++ fmt_02d (display_minutes rem)
          ++ ":" ++ fmt_02d (display_seconds rem)
     else fmt_02d (display_minutes rem) ++ ":" ++
          fmt_02d (display_seconds rem)) /\
  String.length (display_text rem) = if Qle_bool 3600 rem then 8%nat else 5%nat.
Proof.
  intros H0 H1.
  destruct (display_fields_bounds rem) as (Hm & Hs).
  assert (Lm : String.length (fmt_02d (display_minutes rem)) = 2%nat)
    by (apply fmt_02d_two_chars; lia).
  assert (Ls : String.length (fmt_02d (display_seconds rem)) = 2%nat)
    by (apply fmt_02d_two_chars; lia).
  unfold display_text.
  fold (display_hours rem) (display_minutes rem) (display_seconds rem).
  destruct (Qle_bool 3600 rem) eqn:E.
  - apply Qle_bool_iff in E.
    destruct (display_hours_large rem E H1) as [Hh1 Hh2].
    assert (Hpos : (0 <? display_hours rem)%Z = true) by (apply Z.ltb_lt; lia).
    rewrite Hpos. split; [reflexivity |].
    assert (Lh : String.length (fmt_02d (display_hours rem)) = 2%nat)
      by (apply fmt_02d_two_chars; lia).
    rewrite !string_length_append, Lh, Lm, Ls. reflexivity.
  - assert (Hlt : rem < 3600).
    { apply Qnot_le_lt. intro Hle. apply Qle_bool_iff in Hle. congruence. }
    rewrite (display_hours_small rem H0 Hlt). cbn [Z.ltb Z.compare].
    split; [reflexivity |].
    rewrite !string_length_append, Lm, Ls. reflexivity.
Qed.

Lemma display_text_shape_witness :
  display_text 3725 =
    (if Qle_bool 3600 3725
     then fmt_02d (display_hours 3725) ++ ":" ++ fmt_02d (display_minutes 3725)
          ++ ":" ++ fmt_02d (display_seconds 3725)
     else fmt_02d (display_minutes 3725) ++ ":" ++
          fmt_02d (display_seconds 3725)) /\
  String.length (display_text 3725) = if Qle_bool 3600 3725 then 8%nat else 5%nat.
Proof.
  apply (display_text_shape 3725); [apply Qle_bool_iff |]; reflexivity.
Defined.

(** ** Files: statistics and presets *)

(** X14. Statistics survive a save and a load: once [save_stats] has
    written the file, [load_stats] puts the saved statistics back, whatever
    the statistics in memory have become in between. *)
Theorem save_load_stats_roundtrip (s : App) (j : json) :
  fault (disk s) = WriteOk ->
  exists s1 s2, save_stats s = Ret tt s1 /\
    load_stats (set_stats j s1) = Ret tt s2 /\ stats s2 = stats s /\
    stats_file (disk s2) = Doc (stats s).
Proof.
  intro Hw. pose proof (save_stats_cases s) as Hs. rewrite Hw in Hs.
  do 2 eexists. split; [exact Hs |].
  unfold load_stats, bind, get, modify. cbn. repeat split.
Qed.

Lemma save_load_stats_roundtrip_witness :
  exists s1 s2, save_stats (started 300) = Ret tt s1 /\
    load_stats (set_stats JNull s1) = Ret tt s2 /\
    stats s2 = stats (started 300) /\
    stats_file (disk s2) = Doc (stats (started 300)).
Proof.
  apply (save_load_stats_roundtrip (started 300) JNull). reflexivity.
Defined.

(** The finishing tick up to the increment of the counter: the state [s']
    in which [stats_incr] runs. *)
Lemma running_step_to_incr (now : Q) (s : App) (b : bool) :
  sound_enabled s = Some b ->
  Qeq_bool (duration s) 0 = false ->
  duration s - (now - start_time s) <= 0 ->
  exists s', running_step now s =
             (stats_incr "completed_timers" ;; save_stats) s' /\
    remaining s' = 0 /\ is_running s' = false /\ mode s' = mode s /\
    stats s' = stats s /\ disk s' = disk s /\
    events s' =
      (events s ++ (if b then [PlaySound "finish"] else []) ++
       [Notification "Timer Finished!"])%list.
Proof.
  intros Hse Hd Hle.
  rewrite (running_step_prefix now s Hd).
  unfold after_progress, after_recompute. rewrite (py_max0_zero _ Hle).
  cbv zeta.
  unfold bind at 1. unfold update_colors.
  unfold bind at 1. unfold get at 1.
  cbn [remaining set_ui set_remaining].
  change (Qle_bool 0 60) with true. change (Qeq_bool 0 60) with false.
  cbv iota. cbn [when].
  unfold bind at 1. unfold modify_ui at 1. unfold modify at 1.
  unfold ret at 1.
  set (s3 := set_ui _ _).
  unfold check_finished.
  unfold bind at 1. unfold get at 1.
  change (remaining s3) with 0. change (Qeq_bool 0 0) with true. cbn [when].
  unfold bind at 1. unfold modify at 1.
  set (s4 := set_is_running false s3).
  rewrite (bind_ret _ _ _ _ _ (play_sound_enabled "finish" s4 b Hse)).
  set (s5 := if b then _ else _).
  unfold bind at 1. unfold show_notification, modify at 1.
  eexists. split; [reflexivity |].
  subst s5. destruct b; cbn; repeat split; now rewrite <- ?app_assoc.
Qed.

(** X15. [load_stats] takes the document of the file as it is; nothing is
    merged with the default statistics.  After loading a document without
    [completed_timers], the tick on which a running countdown reaches zero
    stops the engine, dispatches sound and notification and then raises
    [KeyError]: the statistics stay as loaded and no file is written. *)
Theorem loaded_stats_replace_defaults (s : App) (now : Q) (b : bool)
    (kv : dict json) :
  stats_file (disk s) = Doc (JObj kv) ->
  dict_get "completed_timers" kv = None ->
  is_timer_mode (mode s) = true -> is_running s = true ->
  sound_enabled s = Some b ->
  Qeq_bool (duration s) 0 = false ->
  duration s - (now - start_time s) <= 0 ->
  load_stats s = Ret tt (set_stats (JObj kv) s) /\
  exists s', update_display now (set_stats (JObj kv) s) = Raise KeyError s' /\
    is_running s' = false /\ stats s' = JObj kv /\ disk s' = disk s /\
    events s' =
      (events s ++ (if b then [PlaySound "finish"] else []) ++
       [Notification "Timer Finished!"])%list.
Proof.
  intros Hf Hk Hm Hr Hse Hd Hle. split.
  - unfold load_stats, bind, get. now rewrite Hf.
  - set (s1 := set_stats (JObj kv) s).
    destruct (running_step_to_incr now s1 b Hse Hd Hle)
      as (s' & Hstep & _ & Hrun & _ & Hst & Hdk & Hev).
    exists s'. split; [| repeat split; assumption].
    rewrite (update_display_timer now s1 Hm).
    change (is_running s1) with (is_running s). rewrite Hr. cbn [when].
    unfold bind at 1. rewrite Hstep.
    unfold bind at 1. unfold stats_incr, bind, get.
    change (stats s1) with (JObj kv) in Hst. rewrite Hst, Hk. reflexivity.
Qed.

Lemma loaded_stats_replace_defaults_witness :
  let s := set_disk {| presets_file := NoFile; stats_file := Doc (JObj []);
                       fault := WriteOk |} (started 300) in
  load_stats s = Ret tt (set_stats (JObj []) s) /\
  exists s', update_display 300 (set_stats (JObj []) s) = Raise KeyError s' /\
    is_running s' = false /\ stats s' = JObj [] /\ disk s' = disk s /\
    events s' =
      (events s ++ [PlaySound "finish"] ++
       [Notification "Timer Finished!"])%list.
Proof.
  apply (loaded_stats_replace_defaults
           (set_disk {| presets_file := NoFile; stats_file := Doc (JObj []);
                        fault := WriteOk |} (started 300))
           300 true []); try reflexivity.
  apply Qle_bool_iff. reflexivity.
Defined.

(** X16. A save that fails after the file was opened makes the application
    unable to start: with the presets file left by such a [save_presets],
    [__init__] raises [JSONDecodeError] while reading the presets. *)
Theorem failed_save_blocks_startup (s : App) (net : option (string * N))
    (now : Q) :
  fault (disk s) = DumpFails ->
  let d := disk (final (save_presets s)) in
  presets_file d = Truncated /\
  exists s', init d net now = Raise JSONDecodeError s'.
Proof.
  intro Hf. cbv zeta.
  pose proof (save_presets_cases s) as Hs. rewrite Hf in Hs. rewrite Hs.
  cbn [final disk set_disk presets_file set_presets_file].
  split; [reflexivity |].
  unfold init. unfold bind at 1. unfold load_presets, bind, get.
  cbn [disk initial presets_file set_presets_file].
  eexists. reflexivity.
Qed.

Lemma failed_save_blocks_startup_witness :
  let d := disk (final (save_presets (initial failing_disk))) in
  presets_file d = Truncated /\
  exists s', init d None 0 = Raise JSONDecodeError s'.
Proof.
  apply (failed_save_blocks_startup (initial failing_disk) None 0).
  reflexivity.
Defined.

Lemma of_kwargs_unknown_key (kw : dict json) (k : string) (v : json) :
  In (k, v) kw -> ~ In k TimerPreset.fields -> TimerPreset.of_kwargs kw = None.
Proof.
  intros Hin Hk. unfold TimerPreset.of_kwargs.
  destruct (forallb _ kw) eqn:E; [| reflexivity].
  rewrite forallb_forall in E. specialize (E (k, v) Hin). cbn [fst] in E.
  apply existsb_exists in E. destruct E as (f & Hf & Heq).
  apply String.eqb_eq in Heq. subst f. contradiction.
Qed.

Lemma presets_of_document_fails (data : dict json) (k : string) (j : json) :
  In (k, j) data -> preset_of_json j = None ->
  forall acc, presets_of_document data acc = None.
Proof.
  induction data as [| [k0 j0] data IH]; intros Hin Hj acc; [contradiction |].
  cbn [presets_of_document].
  destruct Hin as [Heq | Hin].
  - inversion Heq; subst. now rewrite Hj.
  - destruct (preset_of_json j0); [| reflexivity]. now apply IH.
Qed.

(** X17. One preset entry with a field that [TimerPreset] does not have makes
    the whole load fail: [load_presets] raises [TypeError], wherever the
    entry stands in the document, and the state is left as it was. *)
Theorem unknown_field_fails_load (s : App) (data : dict json)
    (name : string) (kw : dict json) (field : string) (v : json) :
  presets_file (disk s) = Doc (JObj data) ->
  In (name, JObj kw) data -> In (field, v) kw ->
  ~ In field TimerPreset.fields ->
  load_presets s = Raise TypeError s.
Proof.
  intros Hf Hin Hfield Hnot.
  unfold load_presets, bind, get. rewrite Hf.
  rewrite (presets_of_document_fails data name (JObj kw) Hin); [reflexivity |].
  cbn [preset_of_json]. eapply of_kwargs_unknown_key; eassumption.
Qed.

Lemma unknown_field_fails_load_witness :
  let data :=
    [("tea", JObj [("name", JStr "tea"); ("duration", JInt 180)]);
     ("talk", JObj [("name", JStr "talk"); ("duration", JInt 60);
                    ("colour", JStr "red")])] in
  let s := initial {| presets_file := Doc (JObj data); stats_file := NoFile;
                      fault := WriteOk |} in
  load_presets s = Raise TypeError s.
Proof.
  cbv zeta.
  eapply (unknown_field_fails_load _ _ "talk" _ "colour" (JStr "red")).
  - reflexivity.
  - right. left. reflexivity.
  - right. right. left. reflexivity.
  - cbn. intuition discriminate.
Defined.

Lemma dict_set_keys_in {V} (k x : string) (v : V) (d : dict V) :
  In x (dict_keys (dict_set k v d)) -> x = k \/ In x (dict_keys d).
Proof.
  induction d as [| [k' v'] d IH]; cbn.
  - intros [H | []]. now left.
  - destruct (String.eqb k k') eqn:E; cbn.
    + tauto.
    + intros [H | H]; [tauto |]. destruct (IH H); tauto.
Qed.

Lemma dict_set_nodup {V} (k : string) (v : V) (d : dict V) :
  NoDup (dict_keys d) -> NoDup (dict_keys (dict_set k v d)).
Proof.
  induction d as [| [k' v'] d IH]; cbn; intro H.
  - repeat constructor. tauto.
  - destruct (String.eqb k k') eqn:E; cbn; [exact H |].
    inversion H as [| ? ? Hn Hd]; subst. constructor; [| now apply IH].
    intro Hin. apply dict_set_keys_in in Hin. destruct Hin as [-> | Hin].
    + rewrite String.eqb_refl in E. discriminate.
    + contradiction.
Qed.

Lemma presets_of_document_nodup (data : dict json) :
  forall acc ps, NoDup (dict_keys acc) ->
  presets_of_document data acc = Some ps -> NoDup (dict_keys ps).
Proof.
  induction data as [| [k j] data IH]; intros acc ps Hnd H;
    cbn [presets_of_document] in H.
  - now inversion H; subst.
  - destruct (preset_of_json j); [| discriminate].
    eapply IH; [| exact H]. now apply dict_set_nodup.
Qed.

(** X18. What [load_presets] returns is a dictionary (its names are distinct)
    and is stable under the files: saving the loaded presets and loading
    again returns the same presets. *)
Theorem load_save_load_presets (s s' : App) (ps : dict TimerPreset.t) :
  load_presets s = Ret ps s' -> fault (disk s) = WriteOk ->
  s' = s /\ NoDup (dict_keys ps) /\
  exists s2, save_presets (set_presets ps s) = Ret tt s2 /\
    load_presets s2 = Ret ps s2.
Proof.
  intros Hload Hw.
  assert (H : s' = s /\ NoDup (dict_keys ps)).
  { unfold load_presets, bind, get in Hload.
    destruct (presets_file (disk s)) as [| j |]; try discriminate.
    - inversion Hload; subst. split; [reflexivity | constructor].
    - destruct j; try discriminate.
      destruct (presets_of_document kv []) as [ps' |] eqn:E; try discriminate.
      inversion Hload; subst. split; [reflexivity |].
      eapply presets_of_document_nodup; [| exact E]. constructor. }
  destruct H as [-> Hnd]. split; [reflexivity |]. split; [exact Hnd |].
  pose proof (save_presets_cases (set_presets ps s)) as Hs.
  change (fault (disk (set_presets ps s))) with (fault (disk s)) in Hs.
  rewrite Hw in Hs. eexists. split; [exact Hs |].
  unfold load_presets, bind, get.
  cbn [disk set_disk presets_file set_presets_file presets set_presets].
  unfold presets_document.
  rewrite (presets_document_from ps [] Hnd). cbn [app].
  rewrite (presets_of_document_from ps [] Hnd). reflexivity.
Qed.

Lemma load_save_load_presets_witness :
  let s := initial {| presets_file := Doc (JObj (presets_document two_presets));
                      stats_file := NoFile; fault := WriteOk |} in
  s = s /\ NoDup (dict_keys two_presets) /\
  exists s2, save_presets (set_presets two_presets s) = Ret tt s2 /\
    load_presets s2 = Ret two_presets s2.
Proof.
  cbv zeta.
  apply (load_save_load_presets
           (initial {| presets_file := Doc (JObj (presets_document two_presets));
                       stats_file := NoFile; fault := WriteOk |}));
    reflexivity.
Defined.

(** ** Switching modes *)

Lemma reset_timer_result (now : Q) (s : App) :
  exists w,
    reset_timer now s =
    Ret tt (set_ui w (set_remaining (duration s)
                        (set_elapsed 0 (set_is_running false s)))).
Proof.
  unfold reset_timer.
  do 2 (unfold bind at 1; unfold modify at 1).
  unfold bind at 1. unfold get at 1.
  unfold bind at 1. unfold modify at 1.
  do 2 (unfold bind at 1; unfold modify_ui at 1; unfold modify at 1).
  unfold bind at 1.
  match goal with |- context [update_display now ?x] =>
    destruct (update_display_not_running now x eq_refl) as [w Hw]; rewrite Hw
  end.
  unfold modify_ui, modify. eexists. reflexivity.
Qed.

(** X19. [switch_mode] returns normally for every mode name and from every
    state: the engine is stopped, [elapsed] is 0 and [remaining] is the
    duration that was set before the switch, also for Pomodoro, whose
    duration of 1500 seconds is assigned after the reset.  Anchor,
    statistics, presets, files and events are untouched. *)
Theorem switch_mode_resets (s : App) (new_mode : string) (now : Q)
    (time_str date_str sub : string) :
  exists sub' s',
    switch_mode new_mode now time_str date_str sub s = Ret sub' s' /\
    mode s' = new_mode /\ is_running s' = false /\ elapsed s' = 0 /\
    remaining s' = duration s /\
    duration s' =
      (if String.eqb new_mode "pomodoro" then 1500 else duration s) /\
    start_time s' = start_time s /\ sound_enabled s' = sound_enabled s /\
    stats s' = stats s /\ presets s' = presets s /\ disk s' = disk s /\
    events s' = events s.
Proof.
  unfold switch_mode.
  unfold bind at 1. unfold modify at 1.
  unfold bind at 1.
  destruct (reset_timer_result now (set_mode new_mode s)) as [w Hw].
  rewrite Hw.
  unfold bind at 1. unfold modify_ui at 1. unfold modify at 1.
  destruct (String.eqb new_mode "clock") eqn:Ec.
  - apply String.eqb_eq in Ec. subst new_mode.
    unfold show_clock, bind, get, modify_ui, modify, ret.
    cbn [mode set_ui set_remaining set_elapsed set_is_running set_mode
         String.eqb Ascii.eqb Bool.eqb].
    do 2 eexists. split; [reflexivity |]. cbn. repeat split.
  - destruct (String.eqb new_mode "pomodoro") eqn:Ep.
    + unfold start_pomodoro, bind, modify, ret.
      do 2 eexists. split; [reflexivity |]. cbn. repeat split.
    + unfold ret. do 2 eexists. split; [reflexivity |]. cbn. repeat split.
Qed.

Lemma switch_mode_state (s : App) (now : Q) (time_str date_str sub : string) :
  exists sub' s',
    switch_mode "pomodoro" now time_str date_str sub s = Ret sub' s' /\
    mode s' = "pomodoro" /\ is_running s' = false /\
    remaining s' = duration s /\ duration s' = 1500.
Proof.
  unfold switch_mode.
  unfold bind at 1. unfold modify at 1.
  unfold bind at 1.
  destruct (reset_timer_result now (set_mode "pomodoro" s)) as [w Hw].
  rewrite Hw.
  unfold bind at 1. unfold modify_ui at 1. unfold modify at 1.
  cbn [String.eqb Ascii.eqb Bool.eqb].
  unfold start_pomodoro, bind, modify, ret.
  do 2 eexists. split; [reflexivity |]. cbn. repeat split.
Qed.

(** X20. Pomodoro gets its 25 minutes at the start: after switching to
    Pomodoro the display still holds the previous duration, and once the
    timer is started the tick at the same instant shows 1500 seconds. *)
Theorem pomodoro_counts_from_1500 (s : App) (now t : Q)
    (time_str date_str sub : string) :
  let s1 := final (switch_mode "pomodoro" now time_str date_str sub s) in
  let s2 := final (update_display t (final (toggle_timer t s1))) in
  remaining s1 = duration s /\ duration s1 = 1500 /\
  is_running s2 = true /\ remaining s2 == 1500.
Proof.
  cbv zeta.
  destruct (switch_mode_state s now time_str date_str sub)
    as (sub' & s1 & Heq & Hm & Hr & Hrem & Hd).
  rewrite Heq. cbn [final].
  assert (Htm : is_timer_mode (mode s1) = true) by (now rewrite Hm).
  destruct (toggle_timer_start s1 t Htm Hr)
    as (s2 & Heq2 & Hrun2 & Hst2 & Hd2 & Hm2 & _).
  rewrite Heq2. cbn [final].
  assert (Htm2 : is_timer_mode (mode s2) = true) by (now rewrite Hm2).
  destruct (update_display_running t s2 Htm2 Hrun2)
    as (Hrem3 & _ & _ & _ & _ & _ & Hrun3).
  repeat split; try assumption.
  - destruct Hrun3 as [H | [_ H]]; [exact H |].
    rewrite Hrem3, Hd2, Hst2, Hd in H. exfalso.
    apply Qeq_bool_iff in H. rewrite py_max0_id in H; lra.
  - rewrite Hrem3, Hd2, Hst2, Hd. rewrite py_max0_id; lra.
Qed.

(** ** The settings window *)

Lemma open_settings_final (s : App) :
  final (open_settings s) = set_sound_enabled (Some true) s.
Proof.
  destruct s as [m r st d el rem th se ps sts w dk ev].
  unfold open_settings, stats_item, bind, get, modify, ret, raise,
    set_sound_enabled.
  cbn [stats mode is_running start_time duration elapsed remaining
       current_theme sound_enabled presets ui disk events final].
  destruct sts as [| | | | | | kv]; try reflexivity.
  destruct (dict_get "total_sessions" kv); cbn [stats]; [| reflexivity].
  destruct (dict_get "completed_timers" kv); cbn [stats]; [| reflexivity].
  destruct (dict_get "total_time" kv) as [t |]; cbn [stats]; [| reflexivity].
  destruct (py_number t); reflexivity.
Qed.

(** X21. Opening the settings window creates the sound setting, switched
    on, whatever it was before and whether or not the statistics text can be
    built, and changes nothing else.  From then on the tick on which a
    running countdown reaches zero goes through: finish sound, notification
    and [completed_timers] plus one. *)
Theorem settings_window_enables_finish (s : App) (now : Q) (kv : dict json)
    (n : Z) :
  is_timer_mode (mode s) = true -> is_running s = true ->
  Qeq_bool (duration s) 0 = false ->
  duration s - (now - start_time s) <= 0 ->
  stats s = JObj kv -> dict_get "completed_timers" kv = Some (JInt n) ->
  final (open_settings s) = set_sound_enabled (Some true) s /\
  let s' := final (update_display now (final (open_settings s))) in
  is_running s' = false /\
  stats s' = JObj (dict_set "completed_timers" (JInt (n + 1)) kv) /\
  events s' =
    (events s ++ [PlaySound "finish"; Notification "Timer Finished!"])%list.
Proof.
  intros Hm Hr Hd Hle Hst Hct.
  split; [apply open_settings_final |]. cbv zeta.
  rewrite open_settings_final.
  set (s1 := set_sound_enabled (Some true) s).
  destruct (running_step_finish now s1 true kv n eq_refl Hd Hle Hst Hct)
    as (s7 & Hstep & _ & Hrun & _ & Hstats & Hev & _).
  assert (Hupd : update_display now s1 =
                 (save_stats ;;
                  s <- get ;;
                  modify_ui
                    (set_time_display_text (display_text (remaining s)))) s7).
  { rewrite (update_display_timer now s1 Hm).
    change (is_running s1) with (is_running s). rewrite Hr. cbn [when].
    unfold bind at 1 3. now rewrite Hstep. }
  rewrite Hupd.
  destruct (save_stats_spec s7) as (Hfr & Hst7 & Hev7 & _).
  destruct Hfr as (_ & _ & _ & _ & _ & _ & Frun).
  change (events s1) with (events s) in Hev. cbn [app] in Hev.
  unfold bind, get, modify_ui, modify.
  destruct (save_stats s7) as [[] s8 | e s8]; cbn [final] in *;
    cbn [is_running stats events set_ui]; repeat split; congruence.
Qed.

Lemma settings_window_enables_finish_witness :
  let s := set_sound_enabled None (started 300) in
  final (open_settings s) = set_sound_enabled (Some true) s /\
  let s' := final (update_display 300 (final (open_settings s))) in
  is_running s' = false /\
  stats s' =
    JObj (dict_set "completed_timers" (JInt (0 + 1))
            [("total_sessions", JInt 0); ("total_time", JInt 0);
             ("completed_timers", JInt 0); ("average_duration", JInt 0)]) /\
  events s' =
    (events s ++ [PlaySound "finish"; Notification "Timer Finished!"])%list.
Proof.
  apply (settings_window_enables_finish
           (set_sound_enabled None (started 300)) 300); try reflexivity.
  apply Qle_bool_iff. reflexivity.
Defined.

(** ** Presets in memory *)

(** X22. [save_preset] with a name and with the sound setting present puts
    the current configuration under that name (replacing a preset of the
    same name where it stands), keeps the names distinct, and writes the
    file so that [load_presets] returns exactly the presets in memory. *)
Theorem save_preset_stores_and_persists (s : App) (name : string) (b : bool) :
  name <> "" -> sound_enabled s = Some b ->
  NoDup (dict_keys (presets s)) -> fault (disk s) = WriteOk ->
  exists s', save_preset (Some name) s = Ret tt s' /\
    presets s' = dict_set name (current_preset name b s) (presets s) /\
    dict_get name (presets s') = Some (current_preset name b s) /\
    NoDup (dict_keys (presets s')) /\
    load_presets s' = Ret (presets s') s'.
Proof.
  intros Hname Hse Hnd Hw.
  set (ps := dict_set name (current_preset name b s) (presets s)).
  assert (Hnd' : NoDup (dict_keys ps)) by (now apply dict_set_nodup).
  assert (Hsave : exists s',
             save_preset (Some name) s = Ret tt s' /\ presets s' = ps /\
             presets_file (disk s') = Doc (JObj (presets_document ps))).
  { unfold save_preset. destruct name as [| c r]; [contradiction |].
    unfold bind at 1. unfold get at 1. rewrite Hse.
    unfold bind at 1. unfold modify at 1. fold ps.
    unfold bind at 1.
    pose proof (save_presets_cases (set_presets ps s)) as Hs.
    change (fault (disk (set_presets ps s))) with (fault (disk s)) in Hs.
    rewrite Hw in Hs. rewrite Hs.
    unfold modify_ui, modify. eexists. split; [reflexivity |].
    split; reflexivity. }
  destruct Hsave as (s' & Heq & Hps & Hfile).
  exists s'. split; [exact Heq |]. rewrite Hps.
  split; [reflexivity |]. split; [apply dict_get_set_same |].
  split; [exact Hnd' |].
  unfold load_presets, bind, get. rewrite Hfile.
  unfold presets_document.
  rewrite (presets_document_from ps [] Hnd'). cbn [app].
  rewrite (presets_of_document_from ps [] Hnd'). reflexivity.
Qed.

Lemma save_preset_stores_and_persists_witness :
  let s := set_presets two_presets (started 300) in
  exists s', save_preset (Some "tea") s = Ret tt s' /\
    presets s' = dict_set "tea" (current_preset "tea" true s) (presets s) /\
    dict_get "tea" (presets s') = Some (current_preset "tea" true s) /\
    NoDup (dict_keys (presets s')) /\
    load_presets s' = Ret (presets s') s'.
Proof.
  apply (save_preset_stores_and_persists
           (set_presets two_presets (started 300)) "tea" true);
    try reflexivity.
  - discriminate.
  - cbn. repeat constructor; cbn; intuition discriminate.
Defined.

Lemma py_number_number_json (q : Q) :
  exists d, py_number (number_json q) = Some d /\ d == q.
Proof.
  unfold number_json.
  destruct (Pos.eqb (Qden (Qred q)) 1) eqn:E; cbn [py_number].
  - eexists. split; [reflexivity |].
    apply Pos.eqb_eq in E.
    rewrite <- (Qred_correct q) at 2.
    destruct (Qred q) as [n d]. cbn [Qden Qnum] in *. subst d. reflexivity.
  - eexists. split; reflexivity.
Qed.

Lemma change_theme_known (th fg : string) (s : App) :
  theme_fg th = Some fg ->
  change_theme th s =
  Ret tt (set_ui (set_time_display_fg fg (ui s)) (with_theme th s)).
Proof.
  intro H. unfold change_theme, bind, modify, modify_ui. now rewrite H.
Qed.

(** X23. A preset saved from a configuration brings that configuration
    back: it has the types [apply_preset] needs, and applied later to a
    stopped application with the sound setting present and whatever
    duration, theme and sound flag it then has, the call returns with the
    saved duration in [duration] and [remaining], the saved sound flag and
    the saved theme. *)
Theorem saved_preset_restores_configuration (s s2 : App) (name : string)
    (b : bool) (now : Q) :
  theme_fg (current_theme s) <> None ->
  is_running s2 = false -> sound_enabled s2 <> None ->
  exists d,
    typed_preset (current_preset name b s) = Some (name, d, b, current_theme s)
    /\ d == duration s /\
    exists s3,
      apply_preset now name d b (current_theme s) s2 = Ret tt s3 /\
      duration s3 = d /\ remaining s3 = d /\
      sound_enabled s3 = Some b /\ current_theme s3 = current_theme s /\
      is_running s3 = false.
Proof.
  intros Hth Hr Hse.
  destruct (py_number_number_json (duration s)) as (d & Hd & Heq).
  exists d. split; [| split; [exact Heq |]].
  { unfold typed_preset, current_preset. cbn. now rewrite Hd. }
  destruct (theme_fg (current_theme s)) as [fg |] eqn:Efg; [| contradiction].
  destruct (sound_enabled s2) as [b2 |] eqn:Es2; [| contradiction].
  unfold apply_preset.
  do 2 (unfold bind at 1; unfold modify at 1).
  unfold bind at 1. unfold get at 1.
  cbn [sound_enabled set_remaining set_duration_field]. rewrite Es2.
  unfold bind at 1. unfold modify at 1.
  unfold bind at 1. rewrite (change_theme_known _ fg _ Efg).
  unfold bind at 1.
  match goal with |- context [update_display now ?x] =>
    destruct (update_display_not_running now x Hr) as [w Hw]; rewrite Hw
  end.
  unfold modify_ui, modify. eexists. split; [reflexivity |].
  cbn. repeat split. exact Hr.
Qed.

Lemma saved_preset_restores_configuration_witness :
  exists d,
    typed_preset (current_preset "talk" true (started 300)) =
      Some ("talk", d, true, current_theme (started 300))
    /\ d == duration (started 300) /\
    exists s3,
      apply_preset 0 "talk" d true (current_theme (started 300))
        (set_sound_enabled (Some false)
           (with_theme "ocean" (set_mode "timer" (initial empty_disk))))
        = Ret tt s3 /\
      duration s3 = d /\ remaining s3 = d /\
      sound_enabled s3 = Some true /\
      current_theme s3 = current_theme (started 300) /\
      is_running s3 = false.
Proof.
  apply (saved_preset_restores_configuration (started 300)
           (set_sound_enabled (Some false)
              (with_theme "ocean" (set_mode "timer" (initial empty_disk))))
           "talk" true 0).
  - discriminate.
  - reflexivity.
  - discriminate.
Defined.

(** X24. Presets need the settings window to have been opened once: while
    the sound setting does not exist, [save_preset] raises [AttributeError]
    and changes nothing, and [apply_preset] raises [AttributeError] after it
    has overwritten [duration] and [remaining]. *)
Theorem presets_need_sound_setting (s : App) (name : string) (now d : Q)
    (b : bool) (theme : string) :
  name <> "" -> sound_enabled s = None ->
  save_preset (Some name) s = Raise AttributeError s /\
  apply_preset now name d b theme s =
    Raise AttributeError (set_remaining d (set_duration_field d s)).
Proof.
  intros Hname Hse. split.
  - unfold save_preset. destruct name as [| c r]; [contradiction |].
    unfold bind, get. now rewrite Hse.
  - unfold apply_preset.
    do 2 (unfold bind at 1; unfold modify at 1).
    unfold bind at 1. unfold get at 1.
    cbn [sound_enabled set_remaining set_duration_field]. rewrite Hse.
    reflexivity.
Qed.

Lemma presets_need_sound_setting_witness :
  let s := set_mode "timer" (initial empty_disk) in
  save_preset (Some "tea") s = Raise AttributeError s /\
  apply_preset 0 "tea" 180 true "default" s =
    Raise AttributeError (set_remaining 180 (set_duration_field 180 s)).
Proof.
  apply (presets_need_sound_setting
           (set_mode "timer" (initial empty_disk)) "tea" 0 180 true "default").
  - discriminate.
  - reflexivity.
Defined.

(** X25. A preset with a theme name that the theme table does not hold is
    applied half-way: [apply_preset] raises [KeyError] in [change_theme]
    after duration, remaining, sound flag and the current theme have been
    overwritten; the display and the status bar are not updated. *)
Theorem unknown_theme_preset_half_applied (s : App) (name : string)
    (now d : Q) (b b0 : bool) (theme : string) :
  sound_enabled s = Some b0 -> theme_fg theme = None ->
  apply_preset now name d b theme s =
    Raise KeyError
          (with_theme theme
             (set_sound_enabled (Some b)
                (set_remaining d (set_duration_field d s)))) /\
  ui (final (apply_preset now name d b theme s)) = ui s.
Proof.
  intros Hse Hth.
  assert (H : apply_preset now name d b theme s =
              Raise KeyError
                (with_theme theme
                   (set_sound_enabled (Some b)
                      (set_remaining d (set_duration_field d s))))).
  { unfold apply_preset.
    do 2 (unfold bind at 1; unfold modify at 1).
    unfold bind at 1. unfold get at 1.
    cbn [sound_enabled set_remaining set_duration_field]. rewrite Hse.
    unfold bind at 1. unfold modify at 1.
    unfold bind at 1. unfold change_theme, bind, modify. now rewrite Hth. }
  rewrite H. split; reflexivity.
Qed.

Lemma unknown_theme_preset_half_applied_witness :
  apply_preset 0 "night" 900 false "midnight" (started 300) =
    Raise KeyError
          (with_theme "midnight"
             (set_sound_enabled (Some false)
                (set_remaining 900 (set_duration_field 900 (started 300)))))
  /\ ui (final (apply_preset 0 "night" 900 false "midnight" (started 300)))
     = ui (started 300).
Proof.
  apply (unknown_theme_preset_half_applied (started 300) "night" 0 900 false
           true "midnight"); reflexivity.
Defined.

(** ** Transparency *)

Lemma nearest_from_in (current : Q) (l : list Q) : forall best,
  nearest_from current best l = best \/ In (nearest_from current best l) l.
Proof.
  induction l as [| x l IH]; intro best; cbn [nearest_from].
  - now left.
  - destruct (Qle_bool _ _).
    + destruct (IH best) as [H | H]; [now left | right; now right].
    + destruct (IH x) as [H | H]; right; [left; now rewrite H | now right].
Qed.

Lemma index_of_in (x : Q) (l : list Q) :
  In x l -> exists i, index_of x l = Some i /\ (i < List.length l)%nat.
Proof.
  induction l as [| y l IH]; [contradiction |]. intro Hin.
  cbn [index_of]. destruct (Qeq_bool y x) eqn:E.
  - exists O. split; [reflexivity | cbn; lia].
  - destruct Hin as [-> | Hin].
    + rewrite Qeq_bool_refl in E. discriminate.
    + destruct (IH Hin) as (i & Hi & Hlt). exists (S i).
      rewrite Hi. split; [reflexivity | cbn; lia].
Qed.

(** X26. [toggle_transparency] never fails, whatever the current value: the
    new transparency is one of the five levels.  From a level the presses
    walk through the levels in a cycle: the next press always changes the
    value, and the fifth press brings the starting level back. *)
Theorem transparency_cycles_through_levels (current : Q) :
  (exists x, toggle_transparency current = Some x /\ In x levels) /\
  (In current levels ->
   (exists x, toggle_transparency current = Some x /\ ~ x == current) /\
   repeat_toggle 5 current = Some current).
Proof.
  split.
  - unfold toggle_transparency, nearest. cbn [levels].
    set (x := nearest_from current (3 # 10) _).
    assert (Hin : In x levels).
    { destruct (nearest_from_in current [5 # 10; 7 # 10; 9 # 10; 1] (3 # 10))
        as [H | H]; fold x in H.
      - left. now rewrite H.
      - right. exact H. }
    destruct (index_of_in x levels Hin) as (i & Hi & Hlt).
    fold levels. rewrite Hi.
    destruct (nth_error levels ((i + 1) mod List.length levels)) as [y |] eqn:E.
    + exists y. split; [reflexivity |]. eapply nth_error_In; eassumption.
    + apply nth_error_None in E.
      assert ((i + 1) mod List.length levels < List.length levels)%nat
        by (apply Nat.mod_upper_bound; discriminate).
      lia.
  - intro Hin. cbn [levels In] in Hin.
    destruct Hin as [<- | [<- | [<- | [<- | [<- | []]]]]];
      (split; [eexists; split; [vm_compute; reflexivity | discriminate]
              | vm_compute; reflexivity]).
Qed.

Lemma transparency_cycles_through_levels_witness :
  (exists x, toggle_transparency (7 # 10) = Some x /\ ~ x == 7 # 10) /\
  repeat_toggle 5 (7 # 10) = Some (7 # 10).
Proof.
  apply (proj2 (transparency_cycles_through_levels (7 # 10))).
  cbn. tauto.
Defined.
